(** * SQL-Chatbot: the query sanitizer, the result normalizer and the
      transcript store of [app.py], embedded and verified.

    [app.py] is a Streamlit script.  Its own logic is
    - [clean_sql_query] (lines 85-96), a string clean-up of the SQL text
      returned by the language model;
    - the extraction of the candidate query from the model's answer with
      [re.search] under [re.IGNORECASE] (the marker SQLQuery: , any
      whitespace, and a group that captures the rest of the line) and the
      [.schema] / [.tables] rewrite (lines 127-149);
    - the display of the query result, as a data frame or as it is
      (lines 152-195);
    - the chat transcript kept in [st.session_state] under the key
      messages (lines 99-100, 111, 198).

    Python strings are sequences of Unicode code points: a [str] is a list
    of code points here, so that whitespace ([str.strip], [\s]) and
    case-insensitive matching are those of Python on every string, not only
    on ASCII ones.  Code that can raise returns in the [res] monad. *)

From Stdlib Require Import NArith ZArith Lia Bool List Ascii String.
From Stdlib Require Import DecimalString DecimalNat.
From stdpp Require Import gmap strings list.
Import ListNotations.

Local Open Scope N_scope.
Local Open Scope list_scope.

(** ** Python strings *)

Module Py.

(** A code point, and a [str]. *)
Definition char := N.
Definition str := list char.

(** An ASCII literal as a [str]. *)
Fixpoint of_string (s : string) : str :=
  match s with
  | EmptyString => []
  | String a t => N_of_ascii a :: of_string t
  end.

Definition nl : char := 10.
Definition backtick : char := 96.
Definition semicolon : char := 59.

(** [str.isspace] on one code point; [\s] of [re] on a [str] pattern is the
    same set (both are [Py_UNICODE_ISSPACE]). *)
Definition is_space (c : char) : bool :=
  ((9 <=? c) && (c <=? 13)) || ((28 <=? c) && (c <=? 32))
  || (c =? 133) || (c =? 160) || (c =? 5760)
  || ((8192 <=? c) && (c <=? 8202))
  || (c =? 8232) || (c =? 8233) || (c =? 8239) || (c =? 8287) || (c =? 12288).

(** What [re.IGNORECASE] lets the pattern letter [p] match, for the letters
    of the two patterns of [app.py] (s, q, l, u, e, r, y): the letter in
    either case, and for s also U+017F, the long s, which the [re] module
    adds to the set of s.  A character that is not a letter matches
    itself. *)
Definition is_upper (c : char) : bool := (65 <=? c) && (c <=? 90).
Definition is_lower (c : char) : bool := (97 <=? c) && (c <=? 122).
Definition to_lower (c : char) : char := if is_upper c then c + 32 else c.

Definition ci_eq (p c : char) : bool :=
  if is_upper p || is_lower p
  then (to_lower c =? to_lower p) || ((to_lower p =? 115) && (c =? 383))
  else p =? c.

(** [s.startswith(p)] *)
Fixpoint startswith (p s : str) : bool :=
  match p, s with
  | [], _ => true
  | a :: p', b :: s' => (a =? b) && startswith p' s'
  | _ :: _, [] => false
  end.

(** [p in s] *)
Fixpoint contains (p s : str) : bool :=
  startswith p s || match s with [] => false | _ :: t => contains p t end.

(** [s.endswith(p)] *)
Definition endswith (p s : str) : bool := startswith (rev p) (rev s).

(** [s.lstrip(..)], [s.rstrip(..)] and [s.strip(..)] for a set of characters
    given by its membership test. *)
Fixpoint lstrip_by (f : char -> bool) (s : str) : str :=
  match s with
  | [] => []
  | c :: t => if f c then lstrip_by f t else s
  end.

Definition rstrip_by (f : char -> bool) (s : str) : str :=
  rev (lstrip_by f (rev s)).

Definition strip_by (f : char -> bool) (s : str) : str :=
  rstrip_by f (lstrip_by f s).

(** [s.strip()] *)
Definition strip (s : str) : str := strip_by is_space s.

(** [s.strip(chars)] *)
Definition strip_chars (chars s : str) : str :=
  strip_by (fun c => existsb (N.eqb c) chars) s.

(** [s.split(sep)] for a separator that is not empty: the pieces between
    the occurrences of [sep], found from the left and not overlapping.
    [skip] counts the characters of an occurrence still to be passed, [acc]
    is the piece being read, reversed. *)
Fixpoint split_go (sep s acc : str) (skip : nat) : list str :=
  match s with
  | [] => [rev acc]
  | c :: t =>
      match skip with
      | S k => split_go sep t acc k
      | O =>
          if startswith sep s
          then rev acc :: split_go sep t [] (Nat.pred (List.length sep))
          else split_go sep t (c :: acc) O
      end
  end.

Definition split (sep s : str) : list str := split_go sep s [] O.

(** The text before the first occurrence of [sep] in [s], all of [s] when
    there is none: the first piece of the split, see [split_first]. *)
Fixpoint before (sep s : str) : str :=
  match s with
  | [] => []
  | c :: t => if startswith sep s then [] else c :: before sep t
  end.

End Py.

Import Py.

(** ** Results and exceptions *)

(** A computation that returns a value or raises; an exception is carried
    by its message, the text that [str(e)] gives. *)
Inductive res (A : Type) : Type :=
| Ok (a : A)
| Raise (e : str).
Arguments Ok {A} a.
Arguments Raise {A} e.

#[global] Instance res_ret : MRet res := @Ok.
#[global] Instance res_bind : MBind res := fun A B k m =>
  match m with
  | Ok a => k a
  | Raise e => Raise e
  end.

(** [l[i]] on a Python list: [IndexError] out of range. *)
Definition getitem {A : Type} (l : list A) (i : nat) : res A :=
  match nth_error l i with
  | Some a => Ok a
  | None => Raise (of_string "list index out of range")
  end.

(** ** The regular expressions of [app.py] *)

Module Re.

(** [re.sub] with the empty replacement, for a pattern that matches no
    empty string:
    [m s] is the length of the match of the pattern at the head of [s], 0
    when there is none.  The scan goes from the left; a matched stretch is
    dropped and the scan resumes after it. *)
Fixpoint sub_go (m : str -> nat) (s : str) (skip : nat) : str :=
  match s with
  | [] => []
  | c :: t =>
      match skip with
      | S k => sub_go m t k
      | O =>
          match m s with
          | O => c :: sub_go m t O
          | S k => sub_go m t k
          end
      end
  end.

Definition sub_empty (m : str -> nat) (s : str) : str := sub_go m s O.

(** A literal matched at the head of [s] under [re.IGNORECASE]: what is
    left of [s] after it. *)
Fixpoint match_ci (p s : str) : option str :=
  match p, s with
  | [], _ => Some s
  | a :: p', b :: s' => if ci_eq a b then match_ci p' s' else None
  | _ :: _, [] => None
  end.

(** The alternation of line 88, three backticks and sql, or three
    backticks alone, under [re.IGNORECASE]: the first alternative is tried
    first. *)
Definition fence : str := Eval vm_compute in of_string "```".
Definition fence_sql : str := Eval vm_compute in of_string "```sql".

Definition fence_len (s : str) : nat :=
  match match_ci fence_sql s with
  | Some _ => 6%nat
  | None =>
      match match_ci fence s with
      | Some _ => 3%nat
      | None => 0%nat
      end
  end.

(** The dot of [re] without [re.DOTALL]: any character but the newline.
    A greedy run of dots takes the rest of the line. *)
Fixpoint rest_of_line (s : str) : str :=
  match s with
  | [] => []
  | c :: t => if c =? nl then [] else c :: rest_of_line t
  end.

(** The pattern of line 128 at the head of [s]: the marker, then greedy
    whitespace, then the group, a greedy run of dots.  Nothing follows the
    group in the pattern, so the first try of each greedy part succeeds and
    nothing is given back.  The result is [group(1)]. *)
Definition marker : str := Eval vm_compute in of_string "SQLQuery:".

Definition match_sqlquery (s : str) : option str :=
  match match_ci marker s with
  | Some after => Some (rest_of_line (lstrip_by is_space after))
  | None => None
  end.

(** [re.search] with that pattern: the match at the leftmost position that
    has one; [None] when no position has. *)
Fixpoint search_sqlquery (s : str) : option str :=
  match match_sqlquery s with
  | Some g => Some g
  | None =>
      match s with
      | [] => None
      | _ :: t => search_sqlquery t
      end
  end.

End Re.

(** ** The query sanitizer *)

(** The literals of lines 90, 92-95, 144 and 146. *)
Definition lets_run : str := Eval vm_compute in of_string "Let's run".
Definition semi : str := Eval vm_compute in of_string ";".
Definition schema_sql : str :=
  Eval vm_compute in of_string "SELECT sql FROM sqlite_master WHERE type='table';".
Definition tables_sql : str :=
  Eval vm_compute in of_string "SELECT name FROM sqlite_master WHERE type='table';".

(** The meta-commands of the SQLite shell that lines 143-146 rewrite. *)
Definition dot_schema : str := Eval vm_compute in of_string ".schema".
Definition dot_tables : str := Eval vm_compute in of_string ".tables".

(** [clean_sql_query], lines 85-96. *)
Definition clean_sql_query (raw_sql : str) : res str :=
  let cleaned := Re.sub_empty Re.fence_len raw_sql in
  cleaned ← getitem (split lets_run cleaned) 0;
  let cleaned := strip_chars semi (strip cleaned) in
  let cleaned := if negb (endswith semi cleaned) then cleaned ++ semi else cleaned in
  Ok cleaned.

(** Lines 127-130: [sql_query] after the search; [None] is Python's
    [None]. *)
Definition extract_sql_query (raw : str) : option str :=
  match Re.search_sqlquery raw with
  | Some g => Some (strip g)
  | None => None
  end.

(** The test [if sql_query:] of lines 135 and 139: [None] and the empty
    string are false. *)
Definition truthy_query (sql_query : option str) : bool :=
  match sql_query with
  | Some (_ :: _) => true
  | _ => false
  end.

(** Lines 140-149: from [sql_query] to [fixed_query]. *)
Definition fix_query (sql_query : str) : res str :=
  let fixed_query := strip sql_query in
  let fixed_query :=
    if startswith dot_schema fixed_query then schema_sql
    else if startswith dot_tables fixed_query then tables_sql
    else fixed_query in
  clean_sql_query fixed_query.

(** The sanitize stage on the raw text of the model: the query handed to
    the database, or [None] when the turn runs no query. *)
Definition sanitize (raw : str) : res (option str) :=
  let sql_query := extract_sql_query raw in
  if truthy_query sql_query then
    match sql_query with
    | Some q => fixed_query ← fix_query q; Ok (Some fixed_query)
    | None => Ok None
    end
  else Ok None.

(** ** Python values *)

(** The values that the database boundary returns and that
    [ast.literal_eval] builds.  An object of another type (a float, a
    set, a result object) is [PyObject], with the name of its type: the
    display code observes of it only its truth value and its [len()], if
    it has one, and the name of the type is in the message of the
    [TypeError] that it raises.  It has no items: an object with items
    that is no list, tuple or string (a dictionary, say) in the place of
    the whole [data_list] is outside the model; [ast.literal_eval] gives
    none for a text that begins as a list of tuples. *)
#[warnings="-register-all"]
Inductive pyval : Type :=
| PyNone
| PyBool (b : bool)
| PyInt (z : Z)
| PyStr (s : str)
| PyTuple (items : list pyval)
| PyList (items : list pyval)
| PyObject (type_name : str) (truth : bool) (len : option nat).

(** The truth value of [v], as [if v:] tests it. *)
Definition truthy (v : pyval) : bool :=
  match v with
  | PyNone => false
  | PyBool b => b
  | PyInt z => negb (z =? 0)%Z
  | PyStr s => negb (Nat.eqb (List.length s) 0)
  | PyTuple items | PyList items => negb (Nat.eqb (List.length items) 0)
  | PyObject _ truth _ => truth
  end.

(** [type(v).__name__] *)
Definition type_name_of (v : pyval) : str :=
  match v with
  | PyNone => of_string "NoneType"
  | PyBool _ => of_string "bool"
  | PyInt _ => of_string "int"
  | PyStr _ => of_string "str"
  | PyTuple _ => of_string "tuple"
  | PyList _ => of_string "list"
  | PyObject type_name _ _ => type_name
  end.

(** [len(v)]: [TypeError] on a value without length. *)
Definition py_len (v : pyval) : res nat :=
  match v with
  | PyStr s => Ok (List.length s)
  | PyTuple items | PyList items => Ok (List.length items)
  | PyObject _ _ (Some n) => Ok n
  | _ =>
      Raise (of_string "object of type '" ++ type_name_of v
               ++ of_string "' has no len()")
  end.

(** [v[0]]: [IndexError] on an empty sequence, [TypeError] on a value
    without items. *)
Definition getitem0 (v : pyval) : res pyval :=
  match v with
  | PyStr s =>
      match s with
      | c :: _ => Ok (PyStr [c])
      | [] => Raise (of_string "string index out of range")
      end
  | PyTuple items =>
      match items with
      | x :: _ => Ok x
      | [] => Raise (of_string "tuple index out of range")
      end
  | PyList items => getitem items 0
  | _ =>
      Raise (of_string "'" ++ type_name_of v
               ++ of_string "' object is not subscriptable")
  end.

(** [str(n)] for a natural number. *)
Definition str_of_nat (n : nat) : str :=
  of_string (NilEmpty.string_of_uint (Nat.to_uint n)).

(** The comprehension of line 174 over [range(n)]: col_1, .., col_n. *)
Definition synthetic_names (n : nat) : list str :=
  map (fun i => of_string "col_" ++ str_of_nat (i + 1)) (seq 0 n).

(** ** The transcript *)

Inductive role : Type := user | assistant.

Record message : Type := Message { msg_role : role; msg_content : str }.

(** The seeded greeting of line 100. *)
Definition greeting : message :=
  Message assistant (of_string "Hello! Ask me anything about your database.").

(** [st.session_state], a dictionary; the script keeps its transcript
    under one key. *)
Definition messages_key : string := "messages".

(** Lines 99-100: the transcript is seeded when the key is missing or the
    clear button was pressed.  The button is the clear() of the transcript
    store. *)
Definition init_messages (session_state : gmap string (list message))
    (clear_button : bool) : gmap string (list message) :=
  if negb (bool_decide (is_Some (session_state !! messages_key))) || clear_button
  then <[messages_key := [greeting]]> session_state
  else session_state.

(** ** One run of the script *)

(** What a run does to the page and to the database, in program order. *)
Inductive effect (frame : Type) : Type :=
| ChatWrite (r : role) (content : str)
| Subheader (text : str)
| Write (v : pyval)
| Code (sql : str)
| DbRun (sql : str)
| ShowFrame (df : frame)
| DownloadButton (label : str) (data : list N) (file_name mime : str)
| Warning (text : str)
| Error (text : str).
Arguments ChatWrite {frame} r content.
Arguments Subheader {frame} text.
Arguments Write {frame} v.
Arguments Code {frame} sql.
Arguments DbRun {frame} sql.
Arguments ShowFrame {frame} df.
Arguments DownloadButton {frame} label data file_name mime.
Arguments Warning {frame} text.
Arguments Error {frame} text.

(** The warning sign of lines 191, 195 and 201, U+26A0 U+FE0F. *)
Definition warning_sign : str := [9888; 65039].

(** The text of the warning of line 191 for the exception [display_err]. *)
Definition display_warning (display_err : str) : str :=
  warning_sign ++ of_string " Could not display table: " ++ display_err.

Section Script.

(** The boundaries of the script.  [agent_invoke q] is the text under the
    key result of what [agent.invoke] returns for the question [q];
    [db_run] is [db.run]; [probe] is the second execution of the query on
    a connection of the engine, for the names of the columns (lines
    170-172); [literal_eval] is [ast.literal_eval]; [DataFrame data
    columns] is the constructor of pandas; [to_csv df] is the method of
    the data frame, called without the index (line 180), and
    [encode_utf8] is the method [encode] of the text it returns, to the
    bytes of its UTF-8 form.  Each can raise. *)
Context {frame : Type}.
Variable agent_invoke : str -> res str.
Variable db_run : str -> res pyval.
Variable probe : str -> res (list str).
Variable literal_eval : str -> res pyval.
Variable DataFrame : pyval -> list str -> res frame.
Variable to_csv : frame -> res str.
Variable encode_utf8 : str -> res (list N).

(** Lines 157-164: the rows, when the result has some. *)
Definition data_list_of (query_result : pyval) : res pyval :=
  match query_result with
  | PyList _ => Ok query_result
  | PyStr s =>
      if startswith (of_string "[(") s then literal_eval s else Ok PyNone
  | _ => Ok PyNone
  end.

(** Line 174: the names col_1 .. col_N, N the length of the first row. *)
Definition synthetic_columns (data_list : pyval) : res (list str) :=
  if truthy data_list then
    first ← getitem0 data_list;
    n ← py_len first;
    Ok (synthetic_names n)
  else Ok [].

(** Lines 169-174. *)
Definition columns_of (fixed_query : str) (data_list : pyval) : res (list str) :=
  match probe fixed_query with
  | Ok columns => Ok columns
  | Raise _ => synthetic_columns data_list
  end.

(** Lines 179-186: the button to download the table as CSV. *)
Definition download_button (df : frame) : res (effect frame) :=
  text ← to_csv df;
  csv_data ← encode_utf8 text;
  Ok (DownloadButton (128229 :: of_string " Download Results as CSV") csv_data
        (of_string "query_results.csv") (of_string "text/csv")).

(** Lines 177-186, with the handler of line 190: the table goes to the
    page, then the button, or the warning when the CSV cannot be made. *)
Definition show_frame (df : frame) : list (effect frame) :=
  ShowFrame df ::
  match download_button df with
  | Ok button => [button]
  | Raise display_err => [Warning (display_warning display_err)]
  end.

(** Lines 156-191: the display of the result of the query.  An exception
    before the table is on the page leaves the warning alone. *)
Definition display_result (fixed_query : str) (query_result : pyval)
    : list (effect frame) :=
  let built :=
    data_list ← data_list_of query_result;
    if truthy data_list then
      columns ← columns_of fixed_query data_list;
      df ← DataFrame data_list columns;
      Ok (Some df)
    else Ok None in
  match built with
  | Ok (Some df) => show_frame df
  | Ok None => [Write query_result]
  | Raise display_err => [Warning (display_warning display_err)]
  end.

(** Lines 152-195: the query goes to the database; what it raises becomes
    a warning. *)
Definition execute (fixed_query : str) : list (effect frame) :=
  DbRun fixed_query ::
  match db_run fixed_query with
  | Ok query_result => display_result fixed_query query_result
  | Raise inner_err =>
      [Warning (warning_sign ++ of_string " Couldn't execute query: " ++ inner_err)]
  end.

(** Lines 110-201: a question of the user.  The result is the transcript
    and the effects of the turn. *)
Definition handle_query (messages : list message) (user_query : str)
    : list message * list (effect frame) :=
  let messages := messages ++ [Message user user_query] in
  let head :=
    [ChatWrite user user_query;
     Subheader (129504 :: of_string " Model Reasoning & SQL Query");
     Subheader (128202 :: of_string " Query Results")] in
  match agent_invoke user_query with
  | Raise e =>
      (messages, head ++ [Error (warning_sign ++ of_string " Error: " ++ e)])
  | Ok raw =>
      let sql_query := extract_sql_query raw in
      let reasoning :=
        Write (PyStr raw) ::
        match sql_query with
        | Some q => if truthy_query sql_query then [Code q] else []
        | None => []
        end in
      let run :=
        match sql_query with
        | Some q =>
            if truthy_query sql_query
            then fixed_query ← fix_query q; Ok (execute fixed_query)
            else Ok []
        | None => Ok []
        end in
      match run with
      | Ok effects =>
          (messages ++ [Message assistant raw], head ++ reasoning ++ effects)
      | Raise e =>
          (messages,
           head ++ reasoning ++ [Error (warning_sign ++ of_string " Error: " ++ e)])
      end
  end.

(** The whole script from line 99 on: the transcript is seeded or kept,
    shown, and a question, if there is one, is handled.  [user_query] is
    what [st.chat_input] returns, [None] without a submission. *)
Definition run_script (session_state : gmap string (list message))
    (clear_button : bool) (user_query : option str)
    : gmap string (list message) * list (effect frame) :=
  let session_state := init_messages session_state clear_button in
  let messages := default [] (session_state !! messages_key) in
  let history := map (fun m => ChatWrite (msg_role m) (msg_content m)) messages in
  match user_query with
  | Some (c :: q) =>
      let '(messages, effects) := handle_query messages (c :: q) in
      (<[messages_key := messages]> session_state, history ++ effects)
  | _ => (session_state, history)
  end.

End Script.

(** ** Auxiliary definitions of the statements *)

(** What [clean_sql_query] has before it puts the semicolon back: the text
    without fences, cut at the phrase of line 90, stripped. *)
Definition clean_body (raw_sql : str) : str :=
  strip_chars semi (strip (before lets_run (Re.sub_empty Re.fence_len raw_sql))).

(** [m] is the marker, in some case. *)
Definition is_marker (m : str) : Prop := Re.match_ci Re.marker m = Some [].

(** [raw] has an occurrence of the marker. *)
Definition has_marker (raw : str) : Prop :=
  exists pre m post, raw = pre ++ m ++ post /\ is_marker m.

(** The text that follows the first occurrence of the marker in [s]. *)
Fixpoint after_marker (s : str) : option str :=
  match Re.match_ci Re.marker s with
  | Some after => Some after
  | None =>
      match s with
      | [] => None
      | _ :: t => after_marker t
      end
  end.

(** A string with one character, the newline. *)
Definition s_nl : string := String (ascii_of_N 10) EmptyString.

(** ** Instances of the boundaries, for the examples *)

(** A reader of the literals in which a driver prints rows: integers,
    quoted strings without escapes, None, True, False, tuples and lists.
    It stands for [ast.literal_eval] in the examples; what it reads, it
    reads as [ast.literal_eval] does, and it raises on the rest. *)
Module Literal.

Definition is_digit (c : char) : bool := (48 <=? c) && (c <=? 57).

Definition skip_blanks (s : str) : str := lstrip_by (fun c => c =? 32) s.

Fixpoint read_digits (s : str) (acc : Z) : Z * str :=
  match s with
  | [] => (acc, [])
  | c :: t =>
      if is_digit c then read_digits t (10 * acc + Z.of_N (c - 48))%Z
      else (acc, s)
  end.

(** A number: digits, without a zero in front of other digits. *)
Definition read_number (s : str) : option (Z * str) :=
  match s with
  | c :: d :: _ =>
      if is_digit c then
        if (c =? 48) && is_digit d then None else Some (read_digits s 0%Z)
      else None
  | [c] => if is_digit c then Some (read_digits s 0%Z) else None
  | [] => None
  end.

(** The text up to the closing quote [q]; no backslash, no line break. *)
Fixpoint read_quoted (q : char) (s acc : str) : option (str * str) :=
  match s with
  | [] => None
  | c :: t =>
      if c =? q then Some (rev acc, t)
      else if (c =? 92) || (c =? nl) then None
      else read_quoted q t (c :: acc)
  end.

Definition keyword (k : string) (v : pyval) (s : str) : option (pyval * str) :=
  if startswith (of_string k) s
  then Some (v, skipn (String.length k) s)
  else None.

(** [read_items] reads the items up to the bracket [close]; the flag says
    whether a comma was read: one item in parentheses without a comma is
    the item itself, not a tuple. *)
Fixpoint read_value (fuel : nat) (s : str) : option (pyval * str) :=
  match fuel with
  | O => None
  | S fuel =>
      match skip_blanks s with
      | [] => None
      | c :: t =>
          if (c =? 39) || (c =? 34) then
            match read_quoted c t [] with
            | Some (x, r) => Some (PyStr x, r)
            | None => None
            end
          else if is_digit c then
            match read_number (c :: t) with
            | Some (z, r) => Some (PyInt z, r)
            | None => None
            end
          else if c =? 45 then
            match read_number t with
            | Some (z, r) => Some (PyInt (- z), r)
            | None => None
            end
          else if c =? 91 then
            match read_items fuel 93 t with
            | Some (items, _, r) => Some (PyList items, r)
            | None => None
            end
          else if c =? 40 then
            match read_items fuel 41 t with
            | Some ([v], false, r) => Some (v, r)
            | Some (items, _, r) => Some (PyTuple items, r)
            | None => None
            end
          else
            match keyword "None" PyNone (c :: t) with
            | Some r => Some r
            | None =>
                match keyword "True" (PyBool true) (c :: t) with
                | Some r => Some r
                | None => keyword "False" (PyBool false) (c :: t)
                end
            end
      end
  end
with read_items (fuel : nat) (close : char) (s : str)
    : option (list pyval * bool * str) :=
  match fuel with
  | O => None
  | S fuel =>
      match skip_blanks s with
      | [] => None
      | c :: t =>
          if c =? close then Some ([], false, t)
          else
            match read_value fuel (c :: t) with
            | Some (v, r) =>
                match skip_blanks r with
                | d :: r' =>
                    if d =? close then Some ([v], false, r')
                    else if d =? 44 then
                      match read_items fuel close r' with
                      | Some (vs, _, r'') => Some (v :: vs, true, r'')
                      | None => None
                      end
                    else None
                | [] => None
                end
            | None => None
            end
      end
  end.

Definition literal_eval (s : str) : res pyval :=
  match read_value (2 * List.length s + 2) s with
  | Some (v, r) =>
      match skip_blanks r with
      | [] => Ok v
      | _ :: _ => Raise (of_string "invalid syntax")
      end
  | None => Raise (of_string "malformed node or string")
  end.

End Literal.

(** A table: the names of its columns and its rows.  [make_table] stands
    for the constructor of pandas where it accepts its arguments. *)
Record table : Type := Table { table_columns : list str; table_rows : pyval }.

Definition make_table (data : pyval) (columns : list str) : res table :=
  Ok (Table columns data).

(** The CSV of a table whose rows are tuples, as long as the header, of
    integers and of plain text: a line with the names, then a line for
    each row, the fields between commas, the lines ended by a line feed.
    It stands for [to_csv] without the index in the examples, on a system
    whose line separator is the line feed; it raises on a table with
    anything that would need quoting or another rendering. *)
Module Csv.

Definition plain (s : str) : bool :=
  negb (Nat.eqb (List.length s) 0)
  && forallb (fun c => (32 <=? c) && negb (c =? 34) && negb (c =? 44)) s.

Definition str_of_Z (z : Z) : str :=
  match z with
  | Z0 => of_string "0"
  | Zpos p => str_of_nat (Pos.to_nat p)
  | Zneg p => of_string "-" ++ str_of_nat (Pos.to_nat p)
  end.

Definition field (v : pyval) : option str :=
  match v with
  | PyInt z => Some (str_of_Z z)
  | PyStr s => if plain s then Some s else None
  | _ => None
  end.

Fixpoint join (fields : list str) : str :=
  match fields with
  | [] => []
  | [f] => f
  | f :: rest => f ++ 44 :: join rest
  end.

Fixpoint fields_of (values : list pyval) : option (list str) :=
  match values with
  | [] => Some []
  | v :: rest =>
      match field v, fields_of rest with
      | Some f, Some fs => Some (f :: fs)
      | _, _ => None
      end
  end.

Definition line (width : nat) (row : pyval) : option str :=
  match row with
  | PyTuple values =>
      if Nat.eqb (List.length values) width then
        match fields_of values with
        | Some fs => Some (join fs ++ [nl])
        | None => None
        end
      else None
  | _ => None
  end.

Fixpoint lines (width : nat) (rows : list pyval) : option str :=
  match rows with
  | [] => Some []
  | row :: rest =>
      match line width row, lines width rest with
      | Some l, Some ls => Some (l ++ ls)
      | _, _ => None
      end
  end.

Definition to_csv (t : table) : res str :=
  match t with
  | Table columns (PyList rows) =>
      if forallb plain columns && negb (Nat.eqb (List.length columns) 0) then
        match lines (List.length columns) rows with
        | Some body => Ok (join columns ++ [nl] ++ body)
        | None => Raise (of_string "not a plain table")
        end
      else Raise (of_string "not a plain table")
  | _ => Raise (of_string "not a plain table")
  end.

End Csv.

(** The UTF-8 form of a text.  It stands for [encode] in the examples; it
    raises on a surrogate, as [encode] does, with a message of its own. *)
Module Utf8.

Definition encode_char (c : char) : option (list N) :=
  if c <? 128 then Some [c]
  else if c <? 2048 then Some [192 + c / 64; 128 + c mod 64]
  else if (55296 <=? c) && (c <=? 57343) then None
  else if c <? 65536 then
    Some [224 + c / 4096; 128 + (c / 64) mod 64; 128 + c mod 64]
  else if c <? 1114112 then
    Some [240 + c / 262144; 128 + (c / 4096) mod 64;
          128 + (c / 64) mod 64; 128 + c mod 64]
  else None.

Fixpoint encode (s : str) : res (list N) :=
  match s with
  | [] => Ok []
  | c :: t =>
      match encode_char c with
      | Some bytes => rest ← encode t; Ok (bytes ++ rest)
      | None => Raise (of_string "'utf-8' codec can't encode character")
      end
  end.

End Utf8.

(** A connection that refuses the second execution of the query. *)
Definition no_probe (fixed_query : str) : res (list str) :=
  Raise (of_string "Not an executable object").

(** A database without the table asked for. *)
Definition failing_db (fixed_query : str) : res pyval :=
  Raise (of_string "no such table: GRADES").

(** An agent that answers every question with [raw]. *)
Definition agent_saying (raw : str) (user_query : str) : res str := Ok raw.

(** Tests on effects, for the statements. *)
Definition is_db_run {frame : Type} (e : effect frame) : bool :=
  match e with
  | DbRun _ => true
  | _ => false
  end.

Definition is_error {frame : Type} (e : effect frame) : bool :=
  match e with
  | Error _ => true
  | _ => false
  end.

(** The session has no transcript yet, or one that begins with the
    greeting. *)
Definition well_seeded (session_state : gmap string (list message)) : Prop :=
  match session_state !! messages_key with
  | None => True
  | Some messages => exists rest, messages = greeting :: rest
  end.


(** ** The start of the script: the database and the key *)

(** Lines 17-18. *)
Definition LOCALDB : str := Eval vm_compute in of_string "USE_LOCALDB".
Definition MYSQL : str := Eval vm_compute in of_string "USE_MYSQL".

(** [a == b] on strings. *)
Fixpoint eqb_str (a b : str) : bool :=
  match a, b with
  | [], [] => true
  | x :: a', y :: b' => (x =? y) && eqb_str a' b'
  | _, _ => false
  end.

(** The truth value of a text field, or of a parameter left at its
    default [None]. *)
Definition given (field : option str) : bool :=
  match field with
  | Some (_ :: _) => true
  | _ => false
  end.

(** A field in an f-string. *)
Definition format_field (field : option str) : str :=
  match field with
  | Some s => s
  | None => of_string "None"
  end.

(** What [create_engine] is called with: the read-only SQLite file through
    its creator (lines 39-41), or a connection URI (line 47). *)
Inductive engine : Type :=
| SqliteCreator (uri : str)
| ConnectionUri (connection_uri : str).

(** What the start of the script does, in program order. *)
Inductive startup_effect : Type :=
| CreateEngine (e : engine)
| StError (text : str)
| StInfo (text : str)
| SidebarWrite (label : str) (shown : pyval)
| SidebarError (text : str).

(** How a stretch of the script ends: with a value, at [st.stop()], or
    with an exception that nothing catches. *)
Inductive flow (A : Type) : Type :=
| Return (a : A)
| Stop
| Crash (e : str).
Arguments Return {A} a.
Arguments Stop {A}.
Arguments Crash {A} e.

Definition details_message : str :=
  of_string "Please provide all MySQL connection details.".

Section Startup.

(** [dbfilepath] is the absolute path of student.db beside the script;
    [SQLDatabase e] is the database object built on [create_engine] called
    as [e] says (the value that [st.cache_resource] holds for these
    arguments, when it holds one); [get_usable_table_names] is the method
    of that object. *)
Context {database : Type}.
Variable dbfilepath : str.
Variable SQLDatabase : engine -> res database.
Variable get_usable_table_names : database -> res (list str).

Definition all_given (mysql_host mysql_user mysql_password mysql_db : option str)
    : bool :=
  given mysql_host && given mysql_user && given mysql_password && given mysql_db.

Definition open_engine (e : engine)
    : list startup_effect * flow (option database) :=
  ([CreateEngine e],
   match SQLDatabase e with
   | Ok db => Return (Some db)
   | Raise err => Crash err
   end).

(** [configure_db], lines 35-47.  A [db_uri] that is neither constant
    falls off the end of the function, which returns [None]. *)
Definition configure_db (db_uri : str)
    (mysql_host mysql_user mysql_password mysql_db : option str)
    : list startup_effect * flow (option database) :=
  if eqb_str db_uri LOCALDB then
    open_engine (SqliteCreator (of_string "file:" ++ dbfilepath ++ of_string "?mode=ro"))
  else if eqb_str db_uri MYSQL then
    if negb (all_given mysql_host mysql_user mysql_password mysql_db)
    then ([StError details_message], Stop)
    else
      open_engine
        (ConnectionUri
           (of_string "mysql+mysqlconnector://" ++ format_field mysql_user
              ++ of_string ":" ++ format_field mysql_password
              ++ of_string "@" ++ format_field mysql_host
              ++ of_string "/" ++ format_field mysql_db))
  else ([], Return None).

(** Lines 59-63: the tables in the sidebar; an exception is shown there. *)
Definition list_tables (db : option database) : startup_effect :=
  match db with
  | Some d =>
      match get_usable_table_names d with
      | Ok tables =>
          SidebarWrite (128203 :: of_string " Tables in DB:")
            (match tables with
             | [] => PyStr (of_string "No tables found.")
             | _ :: _ => PyList (map PyStr tables)
             end)
      | Raise e => SidebarError (of_string "Error fetching tables: " ++ e)
      end
  | None =>
      SidebarError
        (of_string "Error fetching tables: "
           ++ of_string "'NoneType' object has no attribute 'get_usable_table_names'")
  end.

(** Lines 20-68: [selected] is the index of the option chosen in the
    sidebar; the four fields are read only when it is 1; [api_key] is the
    field of the key.  A returned value means that line 71 is reached, with
    this [db]. *)
Definition startup (selected : nat)
    (mysql_host mysql_user mysql_password mysql_db api_key : str)
    : list startup_effect * flow (option database) :=
  let db_uri := if Nat.eqb selected 1 then MYSQL else LOCALDB in
  let configured :=
    if eqb_str db_uri MYSQL then
      if given (Some api_key)
         && negb (all_given (Some mysql_host) (Some mysql_user)
                    (Some mysql_password) (Some mysql_db))
      then ([StError details_message], Stop)
      else configure_db db_uri (Some mysql_host) (Some mysql_user)
             (Some mysql_password) (Some mysql_db)
    else configure_db db_uri None None None None in
  match configured with
  | (effects, Return db) =>
      if negb (given (Some api_key)) then
        (effects ++
           [list_tables db;
            StInfo (128273 :: of_string " Please add your Groq API key in the sidebar to start.")],
         Stop)
      else (effects ++ [list_tables db], Return db)
  | (effects, Stop) => (effects, Stop)
  | (effects, Crash e) => (effects, Crash e)
  end.

End Startup.

Definition is_create_engine (e : startup_effect) : bool :=
  match e with
  | CreateEngine _ => true
  | _ => false
  end.

(** ** [sqlite.py]: the script that fills student.db *)

Module Seed.

(** Lines 21-27. *)
Definition students : list pyval :=
  [PyTuple [PyStr (of_string "Krish"); PyStr (of_string "Data Science");
            PyStr (of_string "A"); PyInt 90];
   PyTuple [PyStr (of_string "John"); PyStr (of_string "Data Science");
            PyStr (of_string "B"); PyInt 100];
   PyTuple [PyStr (of_string "Mukesh"); PyStr (of_string "Data Science");
            PyStr (of_string "A"); PyInt 86];
   PyTuple [PyStr (of_string "Jacob"); PyStr (of_string "DEVOPS");
            PyStr (of_string "A"); PyInt 50];
   PyTuple [PyStr (of_string "Dipesh"); PyStr (of_string "DEVOPS");
            PyStr (of_string "A"); PyInt 35]].

(** The file student.db as far as the script sees it: the table STUDENT is
    missing, or it is the table that the script creates (four columns, no
    constraint), with its rows in the order of their insertion, which is
    the order in which a SELECT of the whole table returns them. *)
Definition db_file : Type := option (list pyval).

(** Lines 10-18: CREATE TABLE IF NOT EXISTS. *)
Definition create_table (file : db_file) : list pyval :=
  match file with
  | Some rows => rows
  | None => []
  end.

(** Line 29: [executemany] inserts the records one after the other. *)
Definition executemany_insert (rows records : list pyval) : list pyval :=
  fold_left (fun table record => table ++ [record]) records rows.

(** What [print] writes: a line of text, or a row. *)
Inductive printed : Type :=
| Line (text : str)
| Row (row : pyval).

(** The whole script: the file after the commit, and what was printed. *)
Definition main (file : db_file) : db_file * list printed :=
  let rows := create_table file in
  let rows := executemany_insert rows students in
  (Some rows, Line (of_string "The inserted records are:") :: map Row rows).

(** The script run [n] times over. *)
Fixpoint runs (n : nat) (file : db_file) : db_file :=
  match n with
  | O => file
  | S k => fst (main (runs k file))
  end.

End Seed.

(** * Properties *)

(** ** Strings *)

Lemma startswith_app (p t : str) : startswith p (p ++ t) = true.
Proof.
  induction p as [|a p IH]; simpl; [reflexivity|].
  now rewrite N.eqb_refl, IH.
Qed.

Lemma startswith_inv (p s : str) :
  startswith p s = true -> exists t, s = p ++ t.
Proof.
  revert s; induction p as [|a p IH]; intros s H.
  - now exists s.
  - destruct s as [|b s]; simpl in H; [discriminate|].
    apply andb_true_iff in H as [Hab Hps].
    apply N.eqb_eq in Hab; subst b.
    destruct (IH _ Hps) as [t ->]. now exists t.
Qed.

Lemma contains_intro (p a b : str) : contains p (a ++ p ++ b) = true.
Proof.
  induction a as [|c a IH]; simpl.
  - destruct (p ++ b) eqn:E; simpl.
    + destruct p; [reflexivity | discriminate].
    + rewrite <- E, startswith_app. reflexivity.
  - rewrite IH. apply orb_true_r.
Qed.

Lemma contains_inv (p s : str) :
  contains p s = true -> exists a b, s = a ++ p ++ b.
Proof.
  induction s as [|c s IH]; simpl; intros H.
  - rewrite orb_false_r in H. apply startswith_inv in H as [t Ht].
    now exists [], t.
  - apply orb_true_iff in H as [H|H].
    + apply startswith_inv in H as [t Ht]. now exists [], t.
    + destruct (IH H) as (a & b & ->). now exists (c :: a), b.
Qed.

(** A part of a string without [p] is without [p]. *)
Lemma contains_part (p l x r : str) :
  contains p (l ++ x ++ r) = false -> contains p x = false.
Proof.
  intros H. destruct (contains p x) eqn:E; [|reflexivity].
  apply contains_inv in E as (a & b & ->).
  rewrite <- H. symmetry.
  replace (l ++ (a ++ p ++ b) ++ r) with ((l ++ a) ++ p ++ (b ++ r))
    by (now rewrite <- !app_assoc).
  apply contains_intro.
Qed.

Lemma lstrip_by_suffix (f : char -> bool) (s : str) :
  exists l, s = l ++ lstrip_by f s /\ forallb f l = true.
Proof.
  induction s as [|c s (l & IH & Hl)]; simpl.
  - now exists [].
  - destruct (f c) eqn:E.
    + exists (c :: l). simpl. rewrite E, Hl. split; [now f_equal | reflexivity].
    + now exists [].
Qed.

Lemma lstrip_by_head (f : char -> bool) (s : str) (c : char) (t : str) :
  lstrip_by f s = c :: t -> f c = false.
Proof.
  induction s as [|d s IH]; simpl; [discriminate|].
  destruct (f d) eqn:E; [exact IH|].
  intros [= -> _]. exact E.
Qed.

Lemma rstrip_by_prefix (f : char -> bool) (s : str) :
  exists r, s = rstrip_by f s ++ r /\ forallb f r = true.
Proof.
  unfold rstrip_by.
  destruct (lstrip_by_suffix f (rev s)) as (l & Hl & Hf).
  exists (rev l). split.
  - rewrite <- rev_app_distr, <- Hl. now rewrite rev_involutive.
  - rewrite forallb_forall in *. intros x Hx. apply Hf. now apply in_rev.
Qed.

Lemma rstrip_by_last (f : char -> bool) (s t : str) (c : char) :
  rstrip_by f s = t ++ [c] -> f c = false.
Proof.
  unfold rstrip_by. intros H.
  apply (f_equal (@rev char)) in H.
  rewrite rev_involutive, rev_app_distr in H. simpl in H.
  exact (lstrip_by_head _ _ _ _ H).
Qed.

(** What [strip] returns is a part of its argument. *)
Lemma strip_by_part (f : char -> bool) (s : str) :
  exists l r, s = l ++ strip_by f s ++ r.
Proof.
  unfold strip_by.
  destruct (lstrip_by_suffix f s) as (l & Hl & _).
  destruct (rstrip_by_prefix f (lstrip_by f s)) as (r & Hr & _).
  exists l, r. now rewrite <- Hr.
Qed.

(** [strip] keeps a string that has a character that is not stripped. *)
Lemma lstrip_by_keeps (f : char -> bool) (s : str) :
  existsb (fun c => negb (f c)) s = true ->
  exists c t, lstrip_by f s = c :: t /\ f c = false.
Proof.
  induction s as [|d s IH]; simpl; [discriminate|].
  destruct (f d) eqn:E; simpl; [exact IH|].
  intros _. now exists d, s.
Qed.

Lemma existsb_rev {A : Type} (g : A -> bool) (l : list A) :
  existsb g (rev l) = existsb g l.
Proof.
  induction l as [|a l IH]; simpl; [reflexivity|].
  rewrite existsb_app, IH. simpl. rewrite orb_false_r. apply orb_comm.
Qed.

Lemma strip_by_keeps (f : char -> bool) (s : str) :
  existsb (fun c => negb (f c)) s = true -> strip_by f s <> [].
Proof.
  intros H. unfold strip_by, rstrip_by.
  destruct (lstrip_by_keeps f s H) as (c & t & Hs & Hc). rewrite Hs.
  assert (Hr : existsb (fun c => negb (f c)) (rev (c :: t)) = true).
  { rewrite existsb_rev. simpl. now rewrite Hc. }
  destruct (lstrip_by_keeps f _ Hr) as (c' & t' & Hs' & _). rewrite Hs'.
  intros Habs. apply (f_equal (@List.length char)) in Habs.
  rewrite length_rev in Habs. discriminate.
Qed.

Lemma split_go_head (sep s acc : str) :
  exists rest, split_go sep s acc O = (rev acc ++ before sep s) :: rest.
Proof.
  revert acc; induction s as [|c s IH]; intros acc.
  - exists []. simpl. now rewrite app_nil_r.
  - cbn [split_go before]. destruct (startswith sep (c :: s)).
    + eexists. now rewrite app_nil_r.
    + destruct (IH (c :: acc)) as [rest ->]. exists rest.
      simpl. now rewrite <- app_assoc.
Qed.

Lemma split_first (sep s : str) :
  getitem (split sep s) 0 = Ok (before sep s).
Proof.
  unfold split. destruct (split_go_head sep s []) as [rest ->]. reflexivity.
Qed.

Lemma before_prefix (sep s : str) : exists r, s = before sep s ++ r.
Proof.
  induction s as [|c s [r IH]]; simpl.
  - now exists [].
  - destruct (startswith sep (c :: s)).
    + now exists (c :: s).
    + exists r. simpl. now f_equal.
Qed.

(** ** The fences *)

Lemma sub_go_skip (m : str -> nat) (s : str) (k : nat) :
  Re.sub_go m s k = Re.sub_go m (skipn k s) O.
Proof.
  revert k; induction s as [|c s IH]; intros [|k]; simpl; auto.
Qed.

Lemma match_ci_app (p q s : str) :
  Re.match_ci (p ++ q) s =
  match Re.match_ci p s with
  | Some r => Re.match_ci q r
  | None => None
  end.
Proof.
  revert s; induction p as [|a p IH]; intros s; [reflexivity|].
  destruct s as [|b s]; simpl; [reflexivity|].
  destruct (ci_eq a b); [apply IH | reflexivity].
Qed.

(** A match of a literal splits the string in the matched stretch, as
    long as the literal, and the rest. *)
Lemma match_ci_inv (p s r : str) :
  Re.match_ci p s = Some r ->
  exists m, s = m ++ r /\ List.length m = List.length p /\ Re.match_ci p m = Some [].
Proof.
  revert s; induction p as [|a p IH]; intros s H.
  - injection H as ->. now exists [].
  - destruct s as [|b s]; simpl in H; [discriminate|].
    destruct (ci_eq a b) eqn:E; [|discriminate].
    destruct (IH _ H) as (m & -> & Hl & Hm).
    exists (b :: m). simpl. rewrite E, Hl. auto.
Qed.

Lemma match_ci_intro (p m r : str) :
  Re.match_ci p m = Some [] -> Re.match_ci p (m ++ r) = Some r.
Proof.
  revert m; induction p as [|a p IH]; intros m H.
  - injection H as ->. reflexivity.
  - destruct m as [|b m]; simpl in H; [discriminate|]. simpl.
    destruct (ci_eq a b); [now apply IH | discriminate].
Qed.

(** The backtick is no letter: [re.IGNORECASE] changes nothing for it. *)
Lemma match_ci_fence (s : str) :
  Re.match_ci Re.fence s =
  if startswith Re.fence s then Some (skipn 3 s) else None.
Proof.
  destruct s as [|c0 [|c1 [|c2 t]]]; cbn -[N.eqb]; try reflexivity.
  - now destruct (96 =? c0).
  - destruct (96 =? c0); [|reflexivity]. now destruct (96 =? c1).
  - destruct (96 =? c0); [|reflexivity]. destruct (96 =? c1); [|reflexivity].
    now destruct (96 =? c2).
Qed.

Lemma fence_len_cases (s : str) :
  (Re.fence_len s = 0%nat /\ startswith Re.fence s = false)
  \/ (Re.fence_len s = 3%nat /\ startswith Re.fence s = true)
  \/ (Re.fence_len s = 6%nat /\ startswith Re.fence s = true).
Proof.
  unfold Re.fence_len.
  change Re.fence_sql with (Re.fence ++ [115; 113; 108]).
  rewrite match_ci_app, match_ci_fence.
  destruct (startswith Re.fence s); [|now left].
  right. destruct (Re.match_ci _ _); auto.
Qed.

Lemma startswith_app_l (p q s : str) :
  startswith p s = false -> startswith (p ++ q) s = false.
Proof.
  revert s; induction p as [|a p IH]; intros s; [discriminate|].
  destruct s as [|b s]; simpl; [reflexivity|].
  destruct (a =? b); simpl; [apply IH | reflexivity].
Qed.

(** Where no run of [k] backticks starts ([k] at most 3), none starts in
    what the scan returns: the scan keeps the characters before the first
    fence as they are. *)
Lemma sub_go_keeps_head (k : nat) (s : str) :
  (k <= 3)%nat ->
  startswith (repeat backtick k) s = false ->
  startswith (repeat backtick k) (Re.sub_go Re.fence_len s O) = false.
Proof.
  revert s; induction k as [|k IH]; intros s Hk H; [discriminate|].
  destruct s as [|c t]; [reflexivity|].
  assert (Hf : startswith Re.fence (c :: t) = false).
  { replace Re.fence with (repeat backtick (S k) ++ repeat backtick (2 - k))
      by (now destruct k as [|[|[|k]]]; try lia).
    now apply startswith_app_l. }
  destruct (fence_len_cases (c :: t)) as [[E _]|[[_ E]|[_ E]]]; try congruence.
  cbn [Re.sub_go]. rewrite E.
  cbn [repeat startswith] in *.
  destruct (backtick =? c); [|reflexivity]. simpl in *.
  apply IH; [lia | assumption].
Qed.

Lemma skipn_length_le {A : Type} (n : nat) (l : list A) :
  (List.length (skipn n l) <= List.length l)%nat.
Proof. rewrite length_skipn. lia. Qed.

(** No fence is left by the substitution of line 88. *)
Lemma sub_fences_no_fence (s : str) :
  contains Re.fence (Re.sub_empty Re.fence_len s) = false.
Proof.
  unfold Re.sub_empty.
  remember (List.length s) as n eqn:Hn.
  assert (Hle : (List.length s <= n)%nat) by lia. clear Hn.
  revert s Hle; induction n as [|n IH]; intros s Hle.
  - destruct s; [reflexivity | simpl in Hle; lia].
  - destruct s as [|c t]; [reflexivity|]. simpl in Hle.
    destruct (fence_len_cases (c :: t)) as [[E Hf]|[[E _]|[E _]]].
    + pose proof (sub_go_keeps_head 3 (c :: t) (le_n _) Hf) as Hh.
      cbn [Re.sub_go] in *. rewrite E in *.
      cbn [contains]. change (repeat backtick 3) with Re.fence in Hh.
      rewrite Hh. simpl. apply IH. lia.
    + cbn [Re.sub_go]. rewrite E, sub_go_skip. apply IH.
      pose proof (skipn_length_le 2 t). lia.
    + cbn [Re.sub_go]. rewrite E, sub_go_skip. apply IH.
      pose proof (skipn_length_le 5 t). lia.
Qed.

(** ** [clean_sql_query] *)

Lemma strip_semi_no_semi (s : str) : endswith semi (strip_chars semi s) = false.
Proof.
  unfold endswith, strip_chars, strip_by, rstrip_by.
  rewrite rev_involutive.
  destruct (lstrip_by _ (rev _)) as [|c t] eqn:E; [reflexivity|].
  apply lstrip_by_head in E. simpl in E. rewrite orb_false_r in E.
  unfold semi. cbn -[N.eqb]. rewrite N.eqb_sym, E. reflexivity.
Qed.

Lemma clean_sql_query_eq (raw_sql : str) :
  clean_sql_query raw_sql = Ok (clean_body raw_sql ++ semi).
Proof.
  unfold clean_sql_query. rewrite split_first. cbn [mbind res_bind].
  now rewrite strip_semi_no_semi.
Qed.

Lemma clean_body_part (raw_sql : str) :
  exists l r, Re.sub_empty Re.fence_len raw_sql = l ++ clean_body raw_sql ++ r.
Proof.
  unfold clean_body, strip_chars, strip.
  set (x := Re.sub_empty _ _).
  destruct (before_prefix lets_run x) as [r1 H1].
  destruct (strip_by_part is_space (before lets_run x)) as (l2 & r2 & H2).
  destruct (strip_by_part (fun c => existsb (N.eqb c) semi)
              (strip_by is_space (before lets_run x))) as (l3 & r3 & H3).
  exists (l2 ++ l3), (r3 ++ r2 ++ r1).
  rewrite H1 at 1. rewrite H2 at 1. rewrite H3 at 1.
  now rewrite <- !app_assoc.
Qed.

Lemma endswith_app (p s : str) : endswith p (s ++ p) = true.
Proof. unfold endswith. rewrite rev_app_distr. apply startswith_app. Qed.

(** A pattern without the semicolon is not found by adding a semicolon
    at the end. *)
Lemma contains_snoc (p s : str) (c d : char) :
  c <> d -> contains (p ++ [d]) s = false -> contains (p ++ [d]) (s ++ [c]) = false.
Proof.
  intros Hcd H. destruct (contains _ (s ++ [c])) eqn:E; [|reflexivity].
  apply contains_inv in E as (a & b & E).
  destruct b as [|x b _] using rev_ind.
  - rewrite app_nil_r, app_assoc in E.
    apply app_inj_tail in E as [_ E]. congruence.
  - rewrite !app_assoc in E. apply app_inj_tail in E as [E _].
    rewrite <- H. symmetry. rewrite E.
    replace (((a ++ p) ++ [d]) ++ b) with (a ++ (p ++ [d]) ++ b)
      by (now rewrite <- !app_assoc).
    apply contains_intro.
Qed.

Lemma clean_body_no_fence (raw_sql : str) :
  contains Re.fence (clean_body raw_sql ++ semi) = false.
Proof.
  change Re.fence with ([backtick; backtick] ++ [backtick]).
  apply contains_snoc; [discriminate|].
  destruct (clean_body_part raw_sql) as (l & r & H).
  apply (contains_part _ l _ r). rewrite <- H.
  apply sub_fences_no_fence.
Qed.

(** ** The search for the marker *)

Lemma search_after_marker (s : str) :
  Re.search_sqlquery s =
  option_map (fun after => Re.rest_of_line (lstrip_by is_space after)) (after_marker s).
Proof.
  induction s as [|c s IH]; [reflexivity|].
  cbn [Re.search_sqlquery after_marker]. unfold Re.match_sqlquery.
  destruct (Re.match_ci Re.marker (c :: s)); [reflexivity | exact IH].
Qed.

Lemma is_marker_length (m : str) : is_marker m -> List.length m = 9%nat.
Proof.
  intros H. destruct (match_ci_inv _ _ _ H) as (m' & -> & Hl & _).
  now rewrite app_nil_r.
Qed.

Lemma after_marker_inv (s after : str) :
  after_marker s = Some after ->
  exists pre m, s = pre ++ m ++ after /\ is_marker m.
Proof.
  induction s as [|c s IH]; cbn [after_marker].
  - destruct (Re.match_ci Re.marker []) eqn:E; [|discriminate].
    intros [= ->]. destruct (match_ci_inv _ _ _ E) as (m & Hm & _ & Hmm).
    now exists [], m.
  - destruct (Re.match_ci Re.marker (c :: s)) eqn:E.
    + intros [= ->]. destruct (match_ci_inv _ _ _ E) as (m & Hm & _ & Hmm).
      now exists [], m.
    + intros H. destruct (IH H) as (pre & m & -> & Hm).
      now exists (c :: pre), m.
Qed.

Lemma app_suffix_of {A : Type} (m a x post : list A) :
  m ++ a = x ++ post -> (List.length m <= List.length x)%nat ->
  exists u, a = u ++ post.
Proof.
  intros E Hl. exists (skipn (List.length m) x).
  apply (f_equal (skipn (List.length m))) in E.
  rewrite !skipn_app, skipn_all, Nat.sub_diag in E. simpl in E.
  replace (List.length m - List.length x)%nat with 0%nat in E by lia.
  exact E.
Qed.

(** The first occurrence of the marker is at the given one or before it:
    what follows it ends with what follows the given one. *)
Lemma after_marker_app (pre m post : str) :
  is_marker m -> exists u, after_marker (pre ++ m ++ post) = Some (u ++ post).
Proof.
  intros Hm. induction pre as [|c pre [u IH]].
  - exists []. simpl app.
    assert (E : Re.match_ci Re.marker (m ++ post) = Some post)
      by now apply match_ci_intro.
    destruct (m ++ post); cbn [after_marker]; now rewrite E.
  - cbn [app after_marker].
    destruct (Re.match_ci Re.marker (c :: pre ++ m ++ post)) as [l|] eqn:E.
    + destruct (match_ci_inv _ _ _ E) as (m' & Hs & Hl & _).
      destruct (app_suffix_of m' l (c :: pre ++ m) post) as [u' ->].
      * rewrite <- Hs. simpl. now rewrite <- app_assoc.
      * rewrite Hl. simpl. rewrite length_app, (is_marker_length m Hm).
        change (List.length Re.marker) with 9%nat. lia.
      * now exists u'.
    + now exists u.
Qed.

Lemma after_marker_none (s : str) : after_marker s = None <-> ~ has_marker s.
Proof.
  split.
  - intros H (pre & m & post & -> & Hm).
    destruct (after_marker_app pre m post Hm) as [u Hu]. congruence.
  - intros H. destruct (after_marker s) as [after|] eqn:E; [|reflexivity].
    destruct (after_marker_inv _ _ E) as (pre & m & -> & Hm).
    exfalso. apply H. now exists pre, m, after.
Qed.

Lemma is_space_nl (c : char) : is_space c = false -> (c =? nl) = false.
Proof.
  intros H. destruct (c =? nl) eqn:E; [|reflexivity].
  apply N.eqb_eq in E. subst c. discriminate.
Qed.

(** When something that is not whitespace follows the marker, the search
    gives a query that is not empty. *)
Lemma extract_some (raw pre m post : str) :
  raw = pre ++ m ++ post -> is_marker m ->
  existsb (fun c => negb (is_space c)) post = true ->
  exists c q, extract_sql_query raw = Some (c :: q).
Proof.
  intros -> Hm Hpost. unfold extract_sql_query.
  rewrite search_after_marker.
  destruct (after_marker_app pre m post Hm) as [u ->]. cbn [option_map].
  destruct (lstrip_by_keeps is_space (u ++ post)) as (c & t & -> & Hc).
  { rewrite existsb_app, Hpost. apply orb_true_r. }
  cbn [Re.rest_of_line]. rewrite (is_space_nl c Hc).
  destruct (strip (c :: Re.rest_of_line t)) as [|c' q] eqn:E.
  - exfalso. revert E. apply strip_by_keeps. simpl. now rewrite Hc.
  - now exists c', q.
Qed.

(** ** The sanitizer: what it returns *)

Lemma endswith_two_semis (body : str) :
  endswith (semi ++ semi) (body ++ semi) = endswith semi body.
Proof.
  unfold endswith. rewrite (rev_app_distr body). reflexivity.
Qed.

Lemma fix_query_eq (sql_query : str) :
  exists x, fix_query sql_query = Ok (clean_body x ++ semi).
Proof. unfold fix_query. eexists. apply clean_sql_query_eq. Qed.

(** C2.  For every raw text that has the marker SQLQuery: (in any case)
    followed by some SQL, that is by at least one character that is not
    whitespace, the sanitize stage returns a query, and this query ends in
    exactly one semicolon (it ends with a semicolon, not with two) and has
    no three backticks in a row, with or without a language tag. *)
Theorem sanitize_one_semicolon_no_fence (raw pre m post : str) :
  raw = pre ++ m ++ post -> is_marker m ->
  existsb (fun c => negb (is_space c)) post = true ->
  exists q, sanitize raw = Ok (Some q)
    /\ endswith semi q = true
    /\ endswith (semi ++ semi) q = false
    /\ contains Re.fence q = false.
Proof.
  intros Hraw Hm Hpost.
  destruct (extract_some raw pre m post Hraw Hm Hpost) as (c & q & E).
  destruct (fix_query_eq (c :: q)) as [x Hx].
  exists (clean_body x ++ semi). unfold sanitize. rewrite E.
  cbn [truthy_query]. rewrite Hx. cbn [mbind res_bind].
  repeat split.
  - apply endswith_app.
  - rewrite endswith_two_semis. apply strip_semi_no_semi.
  - apply clean_body_no_fence.
Qed.

Lemma sanitize_one_semicolon_no_fence_witness :
  exists q, sanitize (of_string "Answer. sqlquery: ```SQL SELECT 1;; ```") = Ok (Some q)
    /\ endswith semi q = true
    /\ endswith (semi ++ semi) q = false
    /\ contains Re.fence q = false.
Proof.
  apply (sanitize_one_semicolon_no_fence _
           (of_string "Answer. ") (of_string "sqlquery:")
           (of_string " ```SQL SELECT 1;; ```"));
    reflexivity.
Defined.

(** C5.  The sanitizer is total and raises nothing: [clean_sql_query]
    returns a string on every string (the index 0 of the split is always
    there), and so do the rewrite of lines 140-149 and the whole stage.
    The worst case is a query without SQL: the lone semicolon, for the
    empty string, for whitespace and for a lone fence. *)
Theorem sanitize_total :
  (forall raw_sql, exists q, clean_sql_query raw_sql = Ok q)
  /\ (forall sql_query, exists q, fix_query sql_query = Ok q)
  /\ (forall raw, exists o, sanitize raw = Ok o)
  /\ clean_sql_query [] = Ok semi
  /\ clean_sql_query (of_string ("  " ++ s_nl ++ " ")) = Ok semi
  /\ clean_sql_query (of_string "```sql") = Ok semi.
Proof.
  assert (Hfix : forall sql_query, exists q, fix_query sql_query = Ok q).
  { intros s. destruct (fix_query_eq s) as [x Hx]. eauto. }
  repeat split; try reflexivity; auto.
  - intros raw_sql. rewrite clean_sql_query_eq. eauto.
  - intros raw. unfold sanitize.
    destruct (truthy_query _); [|eauto].
    destruct (extract_sql_query raw) as [q|]; [|eauto].
    destruct (Hfix q) as [q' ->]. cbn [mbind res_bind]. eauto.
Qed.

(** ** The rewrite of the meta-commands *)

(** C3, as the code has it.  For every candidate whose form trimmed of
    whitespace, before any fence is stripped, starts with .schema, the
    sanitizer returns exactly the SELECT of the sql column of
    sqlite_master; when it starts with .tables, exactly the SELECT of the
    name column; in particular on the candidate .schema itself. *)
Theorem fix_query_meta_commands (candidate : str) :
  (startswith dot_schema (strip candidate) = true ->
   fix_query candidate = Ok schema_sql)
  /\ (startswith dot_tables (strip candidate) = true ->
      fix_query candidate = Ok tables_sql)
  /\ fix_query dot_schema = Ok schema_sql
  /\ fix_query dot_tables = Ok tables_sql.
Proof.
  repeat split; try reflexivity; intros H; unfold fix_query.
  - now rewrite H.
  - destruct (startswith dot_schema (strip candidate)) eqn:E.
    + apply startswith_inv in E as [t E]. rewrite E in H. discriminate.
    + now rewrite H.
Qed.

Lemma fix_query_meta_commands_witness :
  fix_query (of_string "  .schema STUDENT ") = Ok schema_sql
  /\ fix_query (of_string ".tables;") = Ok tables_sql.
Proof.
  split.
  - apply (proj1 (fix_query_meta_commands (of_string "  .schema STUDENT "))).
    reflexivity.
  - apply (proj1 (proj2 (fix_query_meta_commands (of_string ".tables;")))).
    reflexivity.
Defined.

(** C3 as stated fails: the candidate .schema between two fences starts
    with .schema once the fences are stripped and the result trimmed, but
    the test of line 143 runs before the fences are stripped, and the
    sanitizer returns .schema with a semicolon. *)
Lemma fix_query_schema_in_fences :
  let candidate := of_string "```.schema```" in
  startswith dot_schema (strip (Re.sub_empty Re.fence_len candidate)) = true
  /\ fix_query candidate = Ok (of_string ".schema;")
  /\ fix_query candidate <> Ok schema_sql.
Proof. repeat split. discriminate. Qed.

(** ** The cut at the phrase of line 90 *)

Lemma startswith_app_r (p x r : str) :
  startswith p x = true -> startswith p (x ++ r) = true.
Proof.
  intros H. apply startswith_inv in H as [t ->].
  rewrite <- app_assoc. apply startswith_app.
Qed.

(** No character of the phrase occurs twice in it, so an occurrence cannot
    overlap another one: one that starts in [x] and before the phrase that
    follows [x] lies in [x]. *)
Lemma lets_run_no_overlap (x b : str) :
  x <> [] -> startswith lets_run (x ++ lets_run ++ b) = true ->
  startswith lets_run x = true.
Proof.
  intros Hx H. apply startswith_inv in H as [t Ht].
  destruct x as [|x0 [|x1 [|x2 [|x3 [|x4 [|x5 [|x6 [|x7 [|x8 x]]]]]]]]];
    try congruence; try discriminate Ht.
  injection Ht as -> -> -> -> -> -> -> -> -> _. reflexivity.
Qed.

Lemma before_first (a b : str) :
  contains lets_run a = false -> before lets_run (a ++ lets_run ++ b) = a.
Proof.
  induction a as [|c a IH]; intros H.
  - reflexivity.
  - cbn [contains] in H. apply orb_false_iff in H as [Hs Hc].
    cbn [app before].
    destruct (startswith lets_run (c :: a ++ lets_run ++ b)) eqn:E.
    + apply (lets_run_no_overlap (c :: a) b) in E; congruence.
    + f_equal. now apply IH.
Qed.

Lemma before_has_none (s : str) : contains lets_run (before lets_run s) = false.
Proof.
  induction s as [|c s IH]; [reflexivity|].
  cbn [before]. destruct (startswith lets_run (c :: s)) eqn:E; [reflexivity|].
  cbn [contains]. rewrite IH, orb_false_r.
  destruct (startswith lets_run (c :: before lets_run s)) eqn:E'; [|reflexivity].
  destruct (before_prefix lets_run s) as [r Hr].
  apply (startswith_app_r _ _ r) in E'. cbn [app] in E'. rewrite <- Hr in E'.
  congruence.
Qed.

Lemma clean_body_no_lets_run (raw_sql : str) :
  contains lets_run (clean_body raw_sql ++ semi) = false.
Proof.
  change lets_run with ([76; 101; 116; 39; 115; 32; 114; 117] ++ [110]).
  apply contains_snoc; [discriminate|].
  unfold clean_body, strip_chars, strip.
  set (x := before lets_run _).
  destruct (strip_by_part is_space x) as (l2 & r2 & H2).
  destruct (strip_by_part (fun c => existsb (N.eqb c) semi)
              (strip_by is_space x)) as (l3 & r3 & H3).
  apply (contains_part _ l3 _ r3). rewrite <- H3.
  apply (contains_part _ l2 _ r2). rewrite <- H2.
  apply before_has_none.
Qed.

(** Without a backtick there is no fence to strip. *)
Lemma sub_fences_id (s : str) :
  contains [backtick] s = false -> Re.sub_empty Re.fence_len s = s.
Proof.
  unfold Re.sub_empty. induction s as [|c s IH]; [reflexivity|].
  cbn [contains startswith]. rewrite andb_true_r. intros H.
  apply orb_false_iff in H as [Hc Hs].
  destruct (fence_len_cases (c :: s)) as [[E _]|[[_ E]|[_ E]]].
  - cbn [Re.sub_go]. rewrite E. f_equal. now apply IH.
  - unfold Re.fence in E. cbn [startswith] in E.
    change 96 with backtick in E. rewrite Hc in E. discriminate.
  - unfold Re.fence in E. cbn [startswith] in E.
    change 96 with backtick in E. rewrite Hc in E. discriminate.
Qed.

(** C4, as the code has it.  [clean_sql_query] cuts at the first
    occurrence of the phrase Let's run (matched as it is written) in the
    candidate as it stands once the fences are stripped, as line 88 does
    before the cut of line 90: if that text is [a] followed by the phrase
    and by [b], and [a] is without the phrase, the result is [a] alone,
    stripped and closed by a semicolon, whatever [b] is; for a candidate
    without backticks that text is the candidate itself.
    Nothing of the phrase is left in any result.  In particular the fenced
    SELECT 1 followed by the sentence Let's run it gives SELECT 1 and a
    semicolon. *)
Theorem clean_sql_query_cuts_at_lets_run :
  (forall candidate a b : str,
      Re.sub_empty Re.fence_len candidate = a ++ lets_run ++ b ->
      contains lets_run a = false ->
      clean_sql_query candidate = Ok (strip_chars semi (strip a) ++ semi))
  /\ (forall a b : str,
        contains [backtick] (a ++ lets_run ++ b) = false ->
        contains lets_run a = false ->
        clean_sql_query (a ++ lets_run ++ b)
        = Ok (strip_chars semi (strip a) ++ semi))
  /\ (forall candidate : str,
        exists q, clean_sql_query candidate = Ok q /\ contains lets_run q = false)
  /\ clean_sql_query
       (of_string ("```sql" ++ s_nl ++ "SELECT 1" ++ s_nl ++ "```" ++ s_nl ++ "Let's run it"))
     = Ok (of_string "SELECT 1;").
Proof.
  repeat split.
  - intros candidate a b H Ha. rewrite clean_sql_query_eq.
    unfold clean_body. now rewrite H, before_first.
  - intros a b Hb Ha. rewrite clean_sql_query_eq.
    unfold clean_body. now rewrite sub_fences_id, before_first.
  - intros candidate. exists (clean_body candidate ++ semi).
    split; [apply clean_sql_query_eq | apply clean_body_no_lets_run].
Qed.

Lemma clean_sql_query_cuts_at_lets_run_witness :
  clean_sql_query (of_string "SELECT ```sql name FROM STUDENT; Let's run it. Let's run!")
  = Ok (of_string "SELECT  name FROM STUDENT;")
  /\ clean_sql_query (of_string "SELECT 1; Let's run this; SELECT 2")
     = Ok (of_string "SELECT 1;").
Proof.
  split.
  - apply (proj1 clean_sql_query_cuts_at_lets_run
             (of_string "SELECT ```sql name FROM STUDENT; Let's run it. Let's run!")
             (of_string "SELECT  name FROM STUDENT; ")
             (of_string " it. Let's run!"));
      reflexivity.
  - apply (proj1 (proj2 clean_sql_query_cuts_at_lets_run)
             (of_string "SELECT 1; ") (of_string " this; SELECT 2"));
      reflexivity.
Defined.

(** C4 as stated fails: the phrase is looked for after the fences are
    stripped, and the fence pattern, which ignores case, takes the L of the
    phrase for the l of sql.  The candidate below has the phrase once,
    after [a]; line 88 removes the three backticks with sqL, line 90 finds
    no phrase, and what follows the phrase is kept. *)
Lemma lets_run_behind_fence_kept :
  let a := of_string "SELECT 1 ```sq" in
  let b := of_string " DROP TABLE t" in
  contains lets_run a = false
  /\ clean_sql_query (a ++ lets_run ++ b)
     = Ok (of_string "SELECT 1 et's run DROP TABLE t;")
  /\ contains b (of_string "SELECT 1 et's run DROP TABLE t;") = true
  /\ clean_sql_query (a ++ lets_run ++ b) <> clean_sql_query a.
Proof. repeat split. discriminate. Qed.

(** ** The line taken after the marker *)

Lemma lstrip_by_all (f : char -> bool) (ws s : str) :
  forallb f ws = true -> lstrip_by f (ws ++ s) = lstrip_by f s.
Proof.
  induction ws as [|c ws IH]; simpl; [reflexivity|].
  intros H. apply andb_true_iff in H as [-> H]. now apply IH.
Qed.

Lemma rest_of_line_app (line rest : str) :
  forallb (fun x => negb (x =? nl)) line = true ->
  Re.rest_of_line (line ++ nl :: rest) = line.
Proof.
  induction line as [|c line IH]; simpl; [reflexivity|].
  intros H. apply andb_true_iff in H as [Hc H].
  apply negb_true_iff in Hc. rewrite Hc. f_equal. now apply IH.
Qed.

(** C10, as the code has it.  The whitespace that follows the marker, line
    breaks included, is skipped first; the candidate is then the text up to
    the end of that line, trimmed.  When the SQL after the marker spans
    several lines, only its first line [c :: line] is taken and all
    the lines after it, [rest], are dropped. *)
Theorem extract_first_line (raw ws line rest : str) (c : char) :
  after_marker raw = Some (ws ++ (c :: line) ++ nl :: rest) ->
  forallb is_space ws = true ->
  is_space c = false ->
  forallb (fun x => negb (x =? nl)) line = true ->
  extract_sql_query raw = Some (strip (c :: line)).
Proof.
  intros Hafter Hws Hc Hline. unfold extract_sql_query.
  rewrite search_after_marker, Hafter. cbn [option_map].
  rewrite lstrip_by_all by assumption.
  cbn [app lstrip_by]. rewrite Hc.
  change (c :: line ++ nl :: rest) with ((c :: line) ++ nl :: rest).
  rewrite rest_of_line_app; [reflexivity|].
  cbn [forallb]. now rewrite (is_space_nl c Hc), Hline.
Qed.

Lemma extract_first_line_witness :
  extract_sql_query
    (of_string ("Thought. SQLQuery: " ++ s_nl ++ " SELECT NAME " ++ s_nl ++ "FROM STUDENT"))
  = Some (of_string "SELECT NAME").
Proof.
  apply (extract_first_line _ (of_string (" " ++ s_nl ++ " "))
           (of_string "ELECT NAME ") (of_string "FROM STUDENT") 83);
    reflexivity.
Defined.

(** C10 as stated fails: the capture is not bound to the line of the
    marker.  With the marker at the end of its line, the rest of that line
    is empty, and the candidate is SELECT 1, from the line after. *)
Lemma extract_beyond_marker_line :
  let raw := of_string ("SQLQuery:" ++ s_nl ++ "SELECT 1" ++ s_nl ++ "FROM t") in
  after_marker raw = Some (of_string (s_nl ++ "SELECT 1" ++ s_nl ++ "FROM t"))
  /\ strip (Re.rest_of_line (of_string (s_nl ++ "SELECT 1" ++ s_nl ++ "FROM t"))) = []
  /\ extract_sql_query raw = Some (of_string "SELECT 1")
  /\ extract_sql_query raw <> Some [].
Proof. repeat split. discriminate. Qed.

(** ** The transcript store *)

(** C9.  After a clear of the transcript, whatever the session held, the
    transcript has exactly one message, the seeded greeting, and its role
    is assistant. *)
Theorem clear_resets_transcript (session_state : gmap string (list message)) :
  exists m,
    init_messages session_state true !! messages_key = Some [m]
    /\ List.length [m] = 1%nat
    /\ msg_role m = assistant
    /\ m = greeting.
Proof.
  exists greeting. unfold init_messages.
  rewrite orb_true_r, lookup_insert_eq. auto.
Qed.

Section ScriptProperties.

Context {frame : Type}.
Variable agent_invoke : str -> res str.
Variable db_run : str -> res pyval.
Variable probe : str -> res (list str).
Variable literal_eval : str -> res pyval.
Variable DataFrame : pyval -> list str -> res frame.
Variable to_csv : frame -> res str.
Variable encode_utf8 : str -> res (list N).

(** *** The result normalizer *)

(** C6.  A result that is a string beginning with an opening bracket and
    an opening parenthesis is read by [ast.literal_eval]; when the probe
    for the names of the columns raises, the columns are col_1 .. col_N, N
    the length of the first row, and the table that pandas builds from the
    rows read and these names is shown (lines 176-177), before the button
    of lines 179-186.  In particular for the string of the two rows
    (1, 'a') and (2, 'b'): columns col_1 and col_2 and these two rows. *)
Theorem display_rows_literal (fixed_query : str) (df : frame) :
  (forall s : str,
      startswith (of_string "[(") s = true ->
      data_list_of literal_eval (PyStr s) = literal_eval s)
  /\ (forall (s : str) (data_list first : pyval) (n : nat) (e : str),
      startswith (of_string "[(") s = true ->
      literal_eval s = Ok data_list ->
      truthy data_list = true ->
      probe fixed_query = Raise e ->
      getitem0 data_list = Ok first ->
      py_len first = Ok n ->
      DataFrame data_list (synthetic_names n) = Ok df ->
      data_list_of literal_eval (PyStr s) = Ok data_list
      /\ columns_of probe fixed_query data_list = Ok (synthetic_names n)
      /\ display_result probe literal_eval DataFrame to_csv encode_utf8
           fixed_query (PyStr s)
         = show_frame to_csv encode_utf8 df)
  /\ (forall (e : str),
        let rows :=
          PyList [PyTuple [PyInt 1; PyStr (of_string "a")];
                  PyTuple [PyInt 2; PyStr (of_string "b")]] in
        literal_eval (of_string "[(1, 'a'), (2, 'b')]") = Ok rows ->
        probe fixed_query = Raise e ->
        DataFrame rows [of_string "col_1"; of_string "col_2"] = Ok df ->
        display_result probe literal_eval DataFrame to_csv encode_utf8
          fixed_query (PyStr (of_string "[(1, 'a'), (2, 'b')]"))
        = show_frame to_csv encode_utf8 df)
  /\ (exists after, show_frame to_csv encode_utf8 df = ShowFrame df :: after).
Proof.
  assert (G : forall (s : str) (data_list first : pyval) (n : nat) (e : str),
      startswith (of_string "[(") s = true ->
      literal_eval s = Ok data_list ->
      truthy data_list = true ->
      probe fixed_query = Raise e ->
      getitem0 data_list = Ok first ->
      py_len first = Ok n ->
      DataFrame data_list (synthetic_names n) = Ok df ->
      data_list_of literal_eval (PyStr s) = Ok data_list
      /\ columns_of probe fixed_query data_list = Ok (synthetic_names n)
      /\ display_result probe literal_eval DataFrame to_csv encode_utf8
           fixed_query (PyStr s)
         = show_frame to_csv encode_utf8 df).
  { intros s data_list first n e Hs Hl Ht Hp Hf Hn Hd.
    assert (Hdl : data_list_of literal_eval (PyStr s) = Ok data_list).
    { unfold data_list_of. now rewrite Hs. }
    assert (Hc : columns_of probe fixed_query data_list = Ok (synthetic_names n)).
    { unfold columns_of, synthetic_columns. rewrite Hp, Ht, Hf.
      cbn [mbind res_bind]. now rewrite Hn. }
    repeat split; trivial.
    unfold display_result. rewrite Hdl. cbn [mbind res_bind].
    rewrite Ht, Hc. cbn [mbind res_bind]. now rewrite Hd. }
  split; [intros s Hs; unfold data_list_of; now rewrite Hs|].
  split; [exact G|].
  split; [|unfold show_frame; eauto].
  intros e rows Hl Hp Hd.
  now apply (G _ rows (PyTuple [PyInt 1; PyStr (of_string "a")]) 2%nat e).
Qed.

(** A string that begins as a list of tuples and that [ast.literal_eval]
    refuses is not shown: the exception is caught at line 190 and becomes
    the warning of line 191. *)
Lemma display_parse_failure (fixed_query s display_err : str) :
  startswith (of_string "[(") s = true ->
  literal_eval s = Raise display_err ->
  display_result probe literal_eval DataFrame to_csv encode_utf8
    fixed_query (PyStr s)
  = [Warning (display_warning display_err)].
Proof.
  intros Hs Hl. unfold display_result, data_list_of. now rewrite Hs, Hl.
Qed.

(** C7, as the code has it.  When no rows are obtained and nothing was
    raised on the way, the result goes to the page as it is, and no table
    is built: so for every result whose rows, found without an exception,
    are empty or [None]; so for the empty list; so for every string that
    does not begin with the two characters of a list of tuples; so for a
    result that is neither a list nor a string.  A string that begins with
    these two characters and that [ast.literal_eval] refuses gives no rows
    either, but it is not shown: the page gets the warning of line 191
    alone. *)
Theorem display_without_rows (fixed_query : str) :
  (forall query_result data_list : pyval,
      data_list_of literal_eval query_result = Ok data_list ->
      truthy data_list = false ->
      display_result probe literal_eval DataFrame to_csv encode_utf8
        fixed_query query_result
      = [Write query_result])
  /\ display_result probe literal_eval DataFrame to_csv encode_utf8
       fixed_query (PyList [])
     = [Write (PyList [])]
  /\ (forall s : str,
        startswith (of_string "[(") s = false ->
        display_result probe literal_eval DataFrame to_csv encode_utf8
          fixed_query (PyStr s)
        = [Write (PyStr s)])
  /\ display_result probe literal_eval DataFrame to_csv encode_utf8
       fixed_query PyNone
     = [Write PyNone]
  /\ (forall s display_err : str,
        startswith (of_string "[(") s = true ->
        literal_eval s = Raise display_err ->
        display_result probe literal_eval DataFrame to_csv encode_utf8
          fixed_query (PyStr s)
        = [Warning (display_warning display_err)]).
Proof.
  repeat split; try reflexivity.
  - intros query_result data_list Hd Ht.
    unfold display_result. rewrite Hd. cbn [mbind res_bind].
    now rewrite Ht.
  - intros s Hs. unfold display_result, data_list_of. now rewrite Hs.
  - intros s display_err. apply display_parse_failure.
Qed.

(** *** A turn *)

(** C1, as the code has it.  When the text of the model has no occurrence
    of the marker, no candidate is extracted and the turn runs no query:
    the sanitize stage gives none, nothing goes to the database, the text
    is shown as it is and joins the transcript as the message of the
    assistant. *)
Theorem no_marker_no_execution (messages : list message) (user_query raw : str) :
  ~ has_marker raw ->
  agent_invoke user_query = Ok raw ->
  extract_sql_query raw = None
  /\ sanitize raw = Ok None
  /\ handle_query agent_invoke db_run probe literal_eval DataFrame to_csv encode_utf8
      messages user_query =
     ((messages ++ [Message user user_query]) ++ [Message assistant raw],
      [ChatWrite user user_query;
       Subheader (129504 :: of_string " Model Reasoning & SQL Query");
       Subheader (128202 :: of_string " Query Results");
       Write (PyStr raw)]).
Proof.
  intros Hm Ha. apply after_marker_none in Hm.
  assert (E : extract_sql_query raw = None).
  { unfold extract_sql_query. now rewrite search_after_marker, Hm. }
  repeat split; trivial.
  - unfold sanitize. now rewrite E.
  - unfold handle_query. rewrite Ha, E. reflexivity.
Qed.

(** C8.  When the database raises on the sanitized query, the exception
    becomes a warning of the turn, the last thing the turn shows; no error
    is reported, the message of the assistant joins the transcript after
    the question, and the run of the script ends with this transcript in
    the session, ready for the next turn. *)
Theorem execution_failure_is_warning
    (session_state : gmap string (list message)) (messages : list message)
    (user_query raw fixed_query inner_err : str) :
  session_state !! messages_key = Some messages ->
  user_query <> [] ->
  agent_invoke user_query = Ok raw ->
  sanitize raw = Ok (Some fixed_query) ->
  db_run fixed_query = Raise inner_err ->
  exists sql_query effects,
    extract_sql_query raw = Some sql_query
    /\ effects =
       [ChatWrite user user_query;
        Subheader (129504 :: of_string " Model Reasoning & SQL Query");
        Subheader (128202 :: of_string " Query Results");
        Write (PyStr raw);
        Code sql_query;
        DbRun fixed_query;
        Warning (warning_sign ++ of_string " Couldn't execute query: " ++ inner_err)]
    /\ handle_query agent_invoke db_run probe literal_eval DataFrame to_csv encode_utf8
         messages user_query
       = ((messages ++ [Message user user_query]) ++ [Message assistant raw],
          effects)
    /\ run_script agent_invoke db_run probe literal_eval DataFrame to_csv encode_utf8
         session_state false (Some user_query)
       = (<[messages_key :=
              (messages ++ [Message user user_query]) ++ [Message assistant raw]]>
            session_state,
          map (fun m => ChatWrite (msg_role m) (msg_content m)) messages
            ++ effects).
Proof.
  intros Hss Hne Ha Hs Hd. unfold sanitize in Hs.
  destruct (extract_sql_query raw) as [[|c q]|] eqn:E; try discriminate Hs.
  cbn [truthy_query] in Hs.
  destruct (fix_query (c :: q)) as [fq|] eqn:Ef; try discriminate Hs.
  cbn [mbind res_bind] in Hs. injection Hs as ->.
  eexists (c :: q), _. split; [reflexivity|]. split; [reflexivity|].
  assert (Hq : handle_query agent_invoke db_run probe literal_eval DataFrame to_csv encode_utf8
                 messages user_query =
       ((messages ++ [Message user user_query]) ++ [Message assistant raw],
        [ChatWrite user user_query;
         Subheader (129504 :: of_string " Model Reasoning & SQL Query");
         Subheader (128202 :: of_string " Query Results");
         Write (PyStr raw);
         Code (c :: q);
         DbRun fixed_query;
         Warning (warning_sign ++ of_string " Couldn't execute query: " ++ inner_err)])).
  { unfold handle_query. rewrite Ha, E. cbn [truthy_query].
    rewrite Ef. cbn [mbind res_bind]. unfold execute. rewrite Hd. reflexivity. }
  split; [exact Hq|].
  unfold run_script, init_messages.
  rewrite Hss.
  destruct user_query as [|u0 uq]; [congruence|].
  rewrite bool_decide_true by eauto. cbn [negb orb].
  rewrite Hss. cbn [default]. change (id messages) with messages.
  now rewrite Hq.
Qed.

End ScriptProperties.

Lemma display_rows_literal_witness :
  display_result no_probe Literal.literal_eval make_table Csv.to_csv Utf8.encode
    (of_string "SELECT ID, NAME FROM T;")
    (PyStr (of_string "[(1, 'a'), (2, 'b')]"))
  = [ShowFrame
       (Table [of_string "col_1"; of_string "col_2"]
          (PyList [PyTuple [PyInt 1; PyStr (of_string "a")];
                   PyTuple [PyInt 2; PyStr (of_string "b")]]));
     DownloadButton (128229 :: of_string " Download Results as CSV")
       (of_string ("col_1,col_2" ++ s_nl ++ "1,a" ++ s_nl ++ "2,b" ++ s_nl))
       (of_string "query_results.csv") (of_string "text/csv")]
  /\ display_result no_probe Literal.literal_eval make_table Csv.to_csv
       Utf8.encode (of_string "SELECT * FROM STUDENT;")
       (PyStr (of_string "[('Krish', 'Data Science', 'A', 90)]"))
     = [ShowFrame
          (Table (map of_string ["col_1"; "col_2"; "col_3"; "col_4"]%string)
             (PyList [PyTuple [PyStr (of_string "Krish");
                               PyStr (of_string "Data Science");
                               PyStr (of_string "A"); PyInt 90]]));
        DownloadButton (128229 :: of_string " Download Results as CSV")
          (of_string ("col_1,col_2,col_3,col_4" ++ s_nl
                        ++ "Krish,Data Science,A,90" ++ s_nl))
          (of_string "query_results.csv") (of_string "text/csv")].
Proof.
  split.
  - etransitivity.
    + apply (proj1 (proj2 (proj2
               (display_rows_literal no_probe Literal.literal_eval make_table
                  Csv.to_csv Utf8.encode (of_string "SELECT ID, NAME FROM T;")
                  (Table [of_string "col_1"; of_string "col_2"]
                     (PyList [PyTuple [PyInt 1; PyStr (of_string "a")];
                              PyTuple [PyInt 2; PyStr (of_string "b")]])))))
               (of_string "Not an executable object"));
        reflexivity.
    + reflexivity.
  - etransitivity.
    + apply (proj1 (proj2
               (display_rows_literal no_probe Literal.literal_eval make_table
                  Csv.to_csv Utf8.encode (of_string "SELECT * FROM STUDENT;")
                  (Table (map of_string ["col_1"; "col_2"; "col_3"; "col_4"]%string)
                     (PyList [PyTuple [PyStr (of_string "Krish");
                                       PyStr (of_string "Data Science");
                                       PyStr (of_string "A"); PyInt 90]]))))
               (of_string "[('Krish', 'Data Science', 'A', 90)]")
               (PyList [PyTuple [PyStr (of_string "Krish");
                                 PyStr (of_string "Data Science");
                                 PyStr (of_string "A"); PyInt 90]])
               (PyTuple [PyStr (of_string "Krish");
                         PyStr (of_string "Data Science");
                         PyStr (of_string "A"); PyInt 90])
               4%nat (of_string "Not an executable object"));
        reflexivity.
    + reflexivity.
Defined.

Lemma display_without_rows_witness :
  display_result no_probe Literal.literal_eval make_table Csv.to_csv Utf8.encode
    (of_string "SELECT 1;") (PyStr []) = [Write (PyStr [])]
  /\ display_result no_probe Literal.literal_eval make_table Csv.to_csv
       Utf8.encode (of_string "SELECT 1;") (PyStr (of_string "3 rows"))
     = [Write (PyStr (of_string "3 rows"))]
  /\ display_result no_probe Literal.literal_eval make_table Csv.to_csv
       Utf8.encode (of_string "SELECT 1;") (PyStr (of_string "[(1, 2"))
     = [Warning (display_warning (of_string "malformed node or string"))].
Proof.
  split; [|split].
  - apply (proj1 (display_without_rows no_probe Literal.literal_eval make_table
                    Csv.to_csv Utf8.encode (of_string "SELECT 1;"))
             (PyStr []) PyNone);
      reflexivity.
  - apply (proj1 (proj2 (proj2
             (display_without_rows no_probe Literal.literal_eval make_table
                Csv.to_csv Utf8.encode (of_string "SELECT 1;"))))
             (of_string "3 rows")).
    reflexivity.
  - apply (proj2 (proj2 (proj2 (proj2
             (display_without_rows no_probe Literal.literal_eval make_table
                Csv.to_csv Utf8.encode (of_string "SELECT 1;")))))
             (of_string "[(1, 2") (of_string "malformed node or string"));
      reflexivity.
Defined.

(** C7 as stated fails: a string that begins as a list of tuples and that
    the reader of literals refuses gives no rows, yet the result is not
    shown as it is: the page gets a warning and nothing else. *)
Lemma display_unparsed_rows_not_shown :
  let query_result := PyStr (of_string "[(Decimal('1.5'),)]") in
  (exists display_err,
      Literal.literal_eval (of_string "[(Decimal('1.5'),)]") = Raise display_err
      /\ display_result no_probe Literal.literal_eval make_table Csv.to_csv
           Utf8.encode (of_string "SELECT PRICE FROM ITEM;") query_result
         = [Warning (display_warning display_err)])
  /\ display_result no_probe Literal.literal_eval make_table Csv.to_csv
       Utf8.encode (of_string "SELECT PRICE FROM ITEM;") query_result
     <> [Write query_result].
Proof.
  split; [eexists; split; reflexivity | discriminate].
Qed.

Lemma no_marker_no_execution_witness :
  sanitize (of_string "SELECT NAME FROM STUDENT") = Ok None
  /\ handle_query (agent_saying (of_string "SELECT NAME FROM STUDENT"))
       failing_db no_probe Literal.literal_eval make_table Csv.to_csv Utf8.encode
       [greeting] (of_string "names?")
     = ([greeting; Message user (of_string "names?");
         Message assistant (of_string "SELECT NAME FROM STUDENT")],
        [ChatWrite user (of_string "names?");
         Subheader (129504 :: of_string " Model Reasoning & SQL Query");
         Subheader (128202 :: of_string " Query Results");
         Write (PyStr (of_string "SELECT NAME FROM STUDENT"))]).
Proof.
  apply (no_marker_no_execution
           (agent_saying (of_string "SELECT NAME FROM STUDENT"))
           failing_db no_probe Literal.literal_eval make_table Csv.to_csv Utf8.encode
           [greeting] (of_string "names?") (of_string "SELECT NAME FROM STUDENT")).
  - apply after_marker_none. reflexivity.
  - reflexivity.
Defined.

(** C1 as stated fails: a text without the marker is not taken as the
    candidate.  The sanitizer applied to the text itself would give a
    query, but the stage gives none, and the turn sends nothing to the
    database. *)
Lemma no_marker_text_is_not_candidate :
  let raw := of_string "SELECT NAME FROM STUDENT" in
  ~ has_marker raw
  /\ fix_query raw = Ok (of_string "SELECT NAME FROM STUDENT;")
  /\ sanitize raw = Ok None
  /\ sanitize raw <> (fixed_query ← fix_query raw; Ok (Some fixed_query))
  /\ snd (handle_query (agent_saying raw) failing_db no_probe
            Literal.literal_eval make_table Csv.to_csv Utf8.encode
                [greeting] (of_string "names?"))
     = [ChatWrite user (of_string "names?");
        Subheader (129504 :: of_string " Model Reasoning & SQL Query");
        Subheader (128202 :: of_string " Query Results");
        Write (PyStr raw)].
Proof.
  repeat split; try discriminate.
  apply after_marker_none. reflexivity.
Qed.

Lemma execution_failure_is_warning_witness :
  let raw := of_string "Question: marks? SQLQuery: SELECT MARKS FROM GRADES" in
  let session_state : gmap string (list message) :=
    {[ messages_key := [greeting] ]} in
  exists sql_query effects,
    extract_sql_query raw = Some sql_query
    /\ effects =
       [ChatWrite user (of_string "marks?");
        Subheader (129504 :: of_string " Model Reasoning & SQL Query");
        Subheader (128202 :: of_string " Query Results");
        Write (PyStr raw);
        Code sql_query;
        DbRun (of_string "SELECT MARKS FROM GRADES;");
        Warning (warning_sign ++ of_string " Couldn't execute query: "
                   ++ of_string "no such table: GRADES")]
    /\ handle_query (agent_saying raw) failing_db no_probe
         Literal.literal_eval make_table Csv.to_csv Utf8.encode
             [greeting] (of_string "marks?")
       = (([greeting] ++ [Message user (of_string "marks?")])
            ++ [Message assistant raw],
          effects)
    /\ run_script (agent_saying raw) failing_db no_probe
         Literal.literal_eval make_table Csv.to_csv Utf8.encode
         session_state false (Some (of_string "marks?"))
       = (<[messages_key :=
              ([greeting] ++ [Message user (of_string "marks?")])
                ++ [Message assistant raw]]> session_state,
          map (fun m => ChatWrite (msg_role m) (msg_content m)) [greeting]
            ++ effects).
Proof.
  intros raw session_state.
  apply (execution_failure_is_warning (agent_saying raw) failing_db no_probe
           Literal.literal_eval make_table Csv.to_csv Utf8.encode
               session_state [greeting]
           (of_string "marks?") raw
           (of_string "SELECT MARKS FROM GRADES;")
           (of_string "no such table: GRADES"));
    try reflexivity.
  discriminate.
Defined.

(** * Further properties of the code *)

(** ** More on strings *)

Lemma lstrip_by_fix (f : char -> bool) (s : str) :
  (forall c t, s = c :: t -> f c = false) -> lstrip_by f s = s.
Proof.
  destruct s as [|c t]; [reflexivity|]. intros H. simpl.
  now rewrite (H c t eq_refl).
Qed.

Lemma lstrip_by_idem (f : char -> bool) (s : str) :
  lstrip_by f (lstrip_by f s) = lstrip_by f s.
Proof.
  apply lstrip_by_fix. intros c t H. exact (lstrip_by_head _ _ _ _ H).
Qed.

Lemma rstrip_by_idem (f : char -> bool) (s : str) :
  rstrip_by f (rstrip_by f s) = rstrip_by f s.
Proof. unfold rstrip_by. now rewrite rev_involutive, lstrip_by_idem. Qed.

Lemma rstrip_by_snoc (f : char -> bool) (s : str) (c : char) :
  f c = false -> rstrip_by f (s ++ [c]) = s ++ [c].
Proof.
  intros H. unfold rstrip_by. rewrite rev_app_distr. simpl. rewrite H.
  simpl. now rewrite rev_involutive.
Qed.

Lemma rstrip_by_snoc_drop (f : char -> bool) (s : str) (c : char) :
  f c = true -> rstrip_by f (s ++ [c]) = rstrip_by f s.
Proof.
  intros H. unfold rstrip_by. rewrite rev_app_distr. simpl. now rewrite H.
Qed.

(** What [strip] returns does not begin with a stripped character. *)
Lemma strip_by_head (f : char -> bool) (s : str) (c : char) (t : str) :
  strip_by f s = c :: t -> f c = false.
Proof.
  unfold strip_by. intros H.
  destruct (rstrip_by_prefix f (lstrip_by f s)) as (r & Hr & _).
  rewrite H in Hr. exact (lstrip_by_head _ _ _ _ Hr).
Qed.

Lemma strip_by_idem (f : char -> bool) (s : str) :
  strip_by f (strip_by f s) = strip_by f s.
Proof.
  unfold strip_by at 1.
  rewrite (lstrip_by_fix f (strip_by f s)).
  - unfold strip_by. apply rstrip_by_idem.
  - intros c t H. exact (strip_by_head _ _ _ _ H).
Qed.

Lemma forallb_part {A : Type} (g : A -> bool) (l x r : list A) :
  forallb g (l ++ x ++ r) = true -> forallb g x = true.
Proof.
  rewrite !forallb_app. intros H.
  apply andb_true_iff in H as [_ H]. now apply andb_true_iff in H as [H _].
Qed.

Lemma rest_of_line_no_nl (s : str) :
  forallb (fun c => negb (c =? nl)) (Re.rest_of_line s) = true.
Proof.
  induction s as [|c s IH]; [reflexivity|]. simpl.
  destruct (c =? nl) eqn:E; [reflexivity|]. simpl. now rewrite E.
Qed.

(** ** The candidate *)

(** X1.  Whatever the text of the model, the candidate that the search
    gives is one line, trimmed: it has no line feed, and [strip] leaves it
    as it is. *)
Theorem extract_trimmed_single_line (raw q : str) :
  extract_sql_query raw = Some q ->
  forallb (fun c => negb (c =? nl)) q = true /\ strip q = q.
Proof.
  unfold extract_sql_query.
  destruct (Re.search_sqlquery raw) as [g|] eqn:E; [|discriminate].
  intros [= <-]. split; [|apply strip_by_idem].
  destruct (strip_by_part is_space g) as (l & r & Hg).
  apply (forallb_part _ l _ r). unfold strip. rewrite <- Hg.
  rewrite search_after_marker in E.
  destruct (after_marker raw); [|discriminate].
  injection E as <-. apply rest_of_line_no_nl.
Qed.

Lemma extract_trimmed_single_line_witness :
  forallb (fun c => negb (c =? nl)) (of_string "SELECT NAME") = true
  /\ strip (of_string "SELECT NAME") = of_string "SELECT NAME".
Proof.
  apply (extract_trimmed_single_line
           (of_string ("Thought. SQLQuery: " ++ s_nl ++ " SELECT NAME " ++ s_nl ++ "FROM STUDENT"))).
  reflexivity.
Defined.

Lemma ci_eq_lower (p c : char) : to_lower c = to_lower p -> ci_eq p c = true.
Proof.
  unfold ci_eq, to_lower, is_upper, is_lower. intros H.
  destruct ((65 <=? p) && (p <=? 90)) eqn:Up;
    destruct ((97 <=? p) && (p <=? 122)) eqn:Lp;
    destruct ((65 <=? c) && (c <=? 90)) eqn:Uc; cbn [orb];
    rewrite ?H, ?N.eqb_refl; try reflexivity.
  apply andb_true_iff in Uc as [U1 U2].
  apply N.leb_le in U1, U2.
  apply andb_false_iff in Lp as [L|L]; apply N.leb_gt in L; lia.
Qed.

Lemma match_ci_lower (p m post : str) :
  map to_lower m = map to_lower p -> Re.match_ci p (m ++ post) = Some post.
Proof.
  revert m; induction p as [|a p IH]; intros [|b m] H; try discriminate H.
  - reflexivity.
  - injection H as Hb Hm. simpl. rewrite (ci_eq_lower a b Hb). now apply IH.
Qed.

(** X2.  The case of the letters of the marker does not matter: a text
    that begins with the marker written in any mix of cases gives the
    candidate that it gives with the marker as the pattern writes it. *)
Theorem extract_marker_any_case (m post : str) :
  map to_lower m = map to_lower Re.marker ->
  extract_sql_query (m ++ post) = extract_sql_query (Re.marker ++ post)
  /\ extract_sql_query (m ++ post)
     = Some (strip (Re.rest_of_line (lstrip_by is_space post))).
Proof.
  intros H.
  assert (G : forall m', map to_lower m' = map to_lower Re.marker ->
            extract_sql_query (m' ++ post)
            = Some (strip (Re.rest_of_line (lstrip_by is_space post)))).
  { intros m' H'. unfold extract_sql_query. rewrite search_after_marker.
    assert (E : after_marker (m' ++ post) = Some post).
    { pose proof (match_ci_lower Re.marker m' post H') as E.
      destruct (m' ++ post); cbn [after_marker]; now rewrite E. }
    now rewrite E. }
  split; [|now apply G].
  rewrite (G m H). symmetry. now apply G.
Qed.

Lemma extract_marker_any_case_witness :
  extract_sql_query (of_string "sqlQUERY: select 1")
  = extract_sql_query (of_string "SQLQuery: select 1")
  /\ extract_sql_query (of_string "sqlQUERY: select 1")
     = Some (of_string "select 1").
Proof.
  apply (extract_marker_any_case (of_string "sqlQUERY:") (of_string " select 1")).
  reflexivity.
Defined.

(** ** The sanitizer only deletes *)

Lemma sub_go_sublist (m : str -> nat) (s : str) (k : nat) :
  sublist (Re.sub_go m s k) s.
Proof.
  revert k; induction s as [|c s IH]; intros k; [constructor|].
  cbn [Re.sub_go]. destruct k as [|k].
  - destruct (m (c :: s)); [apply sublist_skip | apply sublist_cons]; apply IH.
  - apply sublist_cons, IH.
Qed.

Lemma part_sublist {A : Type} (l x r : list A) : sublist x (l ++ x ++ r).
Proof.
  apply sublist_inserts_l. rewrite <- (app_nil_r x) at 1.
  apply sublist_app; [reflexivity | apply sublist_nil_l].
Qed.

(** X3.  [clean_sql_query] only deletes: what it returns is a semicolon
    after a text that is a run of consecutive characters of the text
    without fences, hence a subsequence of what it was given.  No
    character is added, changed or moved, the last semicolon apart. *)
Theorem clean_sql_query_only_deletes (raw_sql : str) :
  exists l body r,
    clean_sql_query raw_sql = Ok (body ++ semi)
    /\ Re.sub_empty Re.fence_len raw_sql = l ++ body ++ r
    /\ sublist body raw_sql.
Proof.
  destruct (clean_body_part raw_sql) as (l & r & H).
  exists l, (clean_body raw_sql), r. repeat split.
  - apply clean_sql_query_eq.
  - exact H.
  - transitivity (Re.sub_empty Re.fence_len raw_sql).
    + rewrite H. apply part_sublist.
    + apply sub_go_sublist.
Qed.

(** ** Statements that are clean already *)

Lemma sub_fences_fix (s : str) :
  contains Re.fence s = false -> Re.sub_empty Re.fence_len s = s.
Proof.
  unfold Re.sub_empty. induction s as [|c s IH]; [reflexivity|].
  cbn [contains]. intros H. apply orb_false_iff in H as [Hc Hs].
  destruct (fence_len_cases (c :: s)) as [[E _]|[[_ E]|[_ E]]];
    try congruence.
  cbn [Re.sub_go]. rewrite E. f_equal. now apply IH.
Qed.

(** X4.  The strings that the substitution of line 88 leaves as they are
    are those without three backticks in a row; so stripping the fences a
    second time changes nothing. *)
Theorem sub_fences_fixed_points (s : str) :
  (Re.sub_empty Re.fence_len s = s <-> contains Re.fence s = false)
  /\ Re.sub_empty Re.fence_len (Re.sub_empty Re.fence_len s)
     = Re.sub_empty Re.fence_len s.
Proof.
  split; [split|].
  - intros H. rewrite <- H. apply sub_fences_no_fence.
  - apply sub_fences_fix.
  - apply sub_fences_fix, sub_fences_no_fence.
Qed.

Lemma before_none (sep s : str) :
  contains sep s = false -> before sep s = s.
Proof.
  induction s as [|c s IH]; [reflexivity|].
  cbn [contains before]. intros H. apply orb_false_iff in H as [Hc Hs].
  rewrite Hc. f_equal. now apply IH.
Qed.

(** X5.  A statement that is clean already only gets its semicolon: with no
    fence, without the phrase of line 90, and with neither whitespace nor
    a semicolon at either end, it comes back as it is, followed by one
    semicolon. *)
Theorem clean_sql_query_keeps_clean (s : str) :
  contains Re.fence s = false ->
  contains lets_run s = false ->
  strip s = s ->
  strip_chars semi s = s ->
  clean_sql_query s = Ok (s ++ semi).
Proof.
  intros Hf Hl Hs Hc. rewrite clean_sql_query_eq. unfold clean_body.
  now rewrite sub_fences_fix, before_none, Hs, Hc.
Qed.

Lemma clean_sql_query_keeps_clean_witness :
  clean_sql_query (of_string "SELECT `NAME` FROM STUDENT; SELECT 2")
  = Ok (of_string "SELECT `NAME` FROM STUDENT; SELECT 2;").
Proof.
  apply (clean_sql_query_keeps_clean
           (of_string "SELECT `NAME` FROM STUDENT; SELECT 2"));
    reflexivity.
Defined.

(** ** Cleaning twice *)

Lemma strip_semis_snoc (body : str) :
  (forall c t, body = c :: t -> (c =? 59) = false) ->
  endswith semi body = false ->
  strip_chars semi (body ++ semi) = body.
Proof.
  intros Hh He. unfold strip_chars, strip_by.
  destruct body as [|c t].
  - reflexivity.
  - assert (Hc : existsb (N.eqb c) semi = false).
    { unfold semi. cbn [existsb]. now rewrite (Hh c t eq_refl). }
    cbn [app lstrip_by]. rewrite Hc.
    change (c :: t ++ semi) with ((c :: t) ++ [59]).
    rewrite rstrip_by_snoc_drop by reflexivity.
    unfold rstrip_by. unfold endswith in He.
    destruct (rev (c :: t)) as [|d u] eqn:Er.
    + apply (f_equal (@List.length char)) in Er.
      rewrite length_rev in Er. discriminate.
    + unfold semi in He. cbn [rev app startswith] in He.
      rewrite andb_true_r in He.
      cbn [lstrip_by]. unfold semi at 1. cbn [existsb].
      rewrite orb_false_r, N.eqb_sym, He.
      rewrite <- Er. apply rev_involutive.
Qed.

(** X6.  Cleaning a second time changes nothing, unless the first result
    begins with whitespace (which it can, when a semicolon came before the
    text): a result of [clean_sql_query] that does not begin with
    whitespace is returned as it is. *)
Theorem clean_sql_query_twice (raw_sql cleaned : str) :
  clean_sql_query raw_sql = Ok cleaned ->
  lstrip_by is_space cleaned = cleaned ->
  clean_sql_query cleaned = Ok cleaned.
Proof.
  rewrite clean_sql_query_eq. intros [= <-] Hl.
  set (body := clean_body raw_sql) in *.
  rewrite clean_sql_query_eq. f_equal. f_equal.
  unfold clean_body at 1.
  rewrite sub_fences_fix by apply clean_body_no_fence.
  rewrite before_none by apply clean_body_no_lets_run.
  assert (Hs : strip (body ++ semi) = body ++ semi).
  { unfold strip, strip_by. rewrite Hl.
    unfold semi. now apply rstrip_by_snoc. }
  rewrite Hs. apply strip_semis_snoc.
  - intros c t Hb. unfold body, clean_body, strip_chars in Hb.
    apply strip_by_head in Hb. cbn [existsb semi] in Hb.
    now rewrite orb_false_r in Hb.
  - apply strip_semi_no_semi.
Qed.

Lemma clean_sql_query_twice_witness :
  clean_sql_query (of_string "SELECT 1 ;") = Ok (of_string "SELECT 1 ;").
Proof.
  apply (clean_sql_query_twice (of_string "```sql SELECT 1 ;; ```"));
    reflexivity.
Defined.

(** ** The names of the columns *)

Lemma of_string_inj (s t : string) : of_string s = of_string t -> s = t.
Proof.
  revert t; induction s as [|a s IH]; intros [|b t] H; try discriminate H.
  - reflexivity.
  - injection H as Hab Hst. f_equal; [|now apply IH].
    rewrite <- (ascii_N_embedding a), <- (ascii_N_embedding b). now f_equal.
Qed.

Lemma str_of_nat_inj (n m : nat) : str_of_nat n = str_of_nat m -> n = m.
Proof.
  unfold str_of_nat. intros H. apply of_string_inj in H.
  apply (f_equal NilEmpty.uint_of_string) in H.
  rewrite !NilEmpty.usu in H. injection H as H.
  apply (f_equal Nat.of_uint) in H.
  now rewrite !DecimalNat.Unsigned.of_to in H.
Qed.

(** X7.  The synthetic names of line 174 are as many as asked for, the
    name at position [i] is col_ followed by [i + 1] in decimal, and no
    two of them are equal. *)
Theorem synthetic_names_distinct (n : nat) :
  List.length (synthetic_names n) = n
  /\ (forall i, (i < n)%nat ->
        nth_error (synthetic_names n) i
        = Some (of_string "col_" ++ str_of_nat (i + 1)))
  /\ NoDup (synthetic_names n).
Proof.
  unfold synthetic_names. repeat split.
  - now rewrite length_map, length_seq.
  - intros i Hi. rewrite nth_error_map.
    rewrite (nth_error_nth' _ 0%nat) by (now rewrite length_seq).
    now rewrite seq_nth.
  - apply NoDup_ListNoDup, Finite.Injective_map_NoDup.
    + intros i j H. apply app_inv_head in H.
      apply str_of_nat_inj in H. lia.
    + apply seq_NoDup.
Qed.

Lemma synthetic_names_distinct_witness :
  nth_error (synthetic_names 12) 10 = Some (of_string "col_11").
Proof.
  apply (proj1 (proj2 (synthetic_names_distinct 12)) 10%nat). lia.
Defined.

(** ** More on a run of the script *)

Section ScriptFurther.

Context {frame : Type}.
Variable agent_invoke : str -> res str.
Variable db_run : str -> res pyval.
Variable probe : str -> res (list str).
Variable literal_eval : str -> res pyval.
Variable DataFrame : pyval -> list str -> res frame.
Variable to_csv : frame -> res str.
Variable encode_utf8 : str -> res (list N).

Lemma show_frame_cases (df : frame) :
  (exists data,
      show_frame to_csv encode_utf8 df
      = [ShowFrame df;
         DownloadButton (128229 :: of_string " Download Results as CSV") data
           (of_string "query_results.csv") (of_string "text/csv")])
  \/ (exists display_err,
        show_frame to_csv encode_utf8 df
        = [ShowFrame df; Warning (display_warning display_err)]).
Proof.
  unfold show_frame, download_button.
  destruct (to_csv df) as [text|e]; cbn [mbind res_bind]; [|right; eauto].
  destruct (encode_utf8 text) as [data|e]; cbn [mbind res_bind];
    [left | right]; eauto.
Qed.

Lemma display_result_cases (fixed_query : str) (query_result : pyval) :
  (exists df,
      display_result probe literal_eval DataFrame to_csv encode_utf8
        fixed_query query_result
      = show_frame to_csv encode_utf8 df)
  \/ display_result probe literal_eval DataFrame to_csv encode_utf8
       fixed_query query_result
     = [Write query_result]
  \/ (exists display_err,
        display_result probe literal_eval DataFrame to_csv encode_utf8
          fixed_query query_result
        = [Warning (display_warning display_err)]).
Proof.
  unfold display_result.
  destruct (data_list_of literal_eval query_result) as [data_list|e];
    cbn [mbind res_bind]; [|right; right; eauto].
  destruct (truthy data_list); [|right; left; reflexivity].
  destruct (columns_of probe fixed_query data_list) as [columns|e];
    cbn [mbind res_bind]; [|right; right; eauto].
  destruct (DataFrame data_list columns) as [df|e];
    cbn [mbind res_bind]; [left | right; right]; eauto.
Qed.

(** X8.  The display of a result never fails and never reports an error.
    What it puts on the page is the table followed by the button to
    download it; or the table followed by the warning of line 191, when
    the CSV for the button cannot be made; or the result as it is; or
    that warning alone, with the message of the exception caught. *)
Theorem display_result_outcomes (fixed_query : str) (query_result : pyval) :
  (exists df data,
      display_result probe literal_eval DataFrame to_csv encode_utf8
        fixed_query query_result
      = [ShowFrame df;
         DownloadButton (128229 :: of_string " Download Results as CSV") data
           (of_string "query_results.csv") (of_string "text/csv")])
  \/ (exists df display_err,
        display_result probe literal_eval DataFrame to_csv encode_utf8
          fixed_query query_result
        = [ShowFrame df; Warning (display_warning display_err)])
  \/ display_result probe literal_eval DataFrame to_csv encode_utf8
       fixed_query query_result
     = [Write query_result]
  \/ (exists display_err,
        display_result probe literal_eval DataFrame to_csv encode_utf8
          fixed_query query_result
        = [Warning (display_warning display_err)]).
Proof.
  destruct (display_result_cases fixed_query query_result)
    as [[df ->]|[->|[e ->]]].
  - destruct (show_frame_cases df) as [[data ->]|[e ->]].
    + left. eauto.
    + right. left. eauto.
  - right. right. left. reflexivity.
  - right. right. right. eauto.
Qed.

(** X9.  Rows without a length: when the result is a list, the probe for
    the names raises and the first row is a value on which [len] raises (a
    number, say), the exception leaves the handler of line 173 and the
    display ends in the warning of line 191; no table is built. *)
Theorem display_rows_without_length
    (fixed_query : str) (items : list pyval) (first : pyval) (e e' : str) :
  getitem0 (PyList items) = Ok first ->
  py_len first = Raise e' ->
  probe fixed_query = Raise e ->
  display_result probe literal_eval DataFrame to_csv encode_utf8
    fixed_query (PyList items)
  = [Warning (display_warning e')].
Proof.
  intros Hf Hl Hp. unfold display_result.
  cbn [data_list_of mbind res_bind].
  assert (Ht : truthy (PyList items) = true).
  { destruct items; [discriminate Hf | reflexivity]. }
  rewrite Ht. unfold columns_of, synthetic_columns.
  rewrite Hp, Ht, Hf. cbn [mbind res_bind]. now rewrite Hl.
Qed.

Lemma display_result_no_db_run (fixed_query : str) (query_result : pyval) :
  existsb is_db_run
    (display_result probe literal_eval DataFrame to_csv encode_utf8
       fixed_query query_result) = false
  /\ existsb is_error
       (display_result probe literal_eval DataFrame to_csv encode_utf8
          fixed_query query_result) = false.
Proof.
  destruct (display_result_cases fixed_query query_result)
    as [[df ->]|[->|[e ->]]]; [|split; reflexivity..].
  destruct (show_frame_cases df) as [[data ->]|[e ->]]; split; reflexivity.
Qed.

(** X10.  The marker with nothing but whitespace after it gives an empty
    candidate, which the tests of lines 135 and 139 take as no query: the
    turn shows no code, sends nothing to the database, and the answer of
    the model joins the transcript. *)
Theorem marker_without_sql_runs_nothing
    (messages : list message) (user_query raw ws : str) :
  after_marker raw = Some ws ->
  forallb is_space ws = true ->
  agent_invoke user_query = Ok raw ->
  extract_sql_query raw = Some []
  /\ sanitize raw = Ok None
  /\ handle_query agent_invoke db_run probe literal_eval DataFrame to_csv encode_utf8
       messages user_query
     = ((messages ++ [Message user user_query]) ++ [Message assistant raw],
        [ChatWrite user user_query;
         Subheader (129504 :: of_string " Model Reasoning & SQL Query");
         Subheader (128202 :: of_string " Query Results");
         Write (PyStr raw)]).
Proof.
  intros Ha Hw Hr.
  assert (E : extract_sql_query raw = Some []).
  { unfold extract_sql_query. rewrite search_after_marker, Ha.
    cbn [option_map]. rewrite <- (app_nil_r ws), lstrip_by_all by assumption.
    reflexivity. }
  repeat split; trivial.
  - unfold sanitize. now rewrite E.
  - unfold handle_query. rewrite Hr, E. reflexivity.
Qed.

(** X11.  The transcript of a turn: the question is always appended, and
    the answer of the model is appended after it exactly when the agent
    returned one, whatever the database and the display do then; the
    turn reports an error only when the agent raised, and then it sends
    nothing to the database. *)
Theorem turn_transcript (messages : list message) (user_query : str) :
  match agent_invoke user_query with
  | Ok raw =>
      fst (handle_query agent_invoke db_run probe literal_eval DataFrame to_csv encode_utf8
             messages user_query)
      = messages ++ [Message user user_query; Message assistant raw]
      /\ existsb is_error
           (snd (handle_query agent_invoke db_run probe literal_eval DataFrame to_csv encode_utf8
                   messages user_query)) = false
  | Raise e =>
      handle_query agent_invoke db_run probe literal_eval DataFrame to_csv encode_utf8
        messages user_query
      = (messages ++ [Message user user_query],
         [ChatWrite user user_query;
          Subheader (129504 :: of_string " Model Reasoning & SQL Query");
          Subheader (128202 :: of_string " Query Results");
          Error (warning_sign ++ of_string " Error: " ++ e)])
  end.
Proof.
  unfold handle_query.
  destruct (agent_invoke user_query) as [raw|e]; [|reflexivity].
  destruct (extract_sql_query raw) as [[|c q]|]; cbn [truthy_query fst snd];
    try (split; [now rewrite <- app_assoc | reflexivity]).
  destruct (fix_query_eq (c :: q)) as [x ->]. cbn [mbind res_bind fst snd].
  split; [now rewrite <- app_assoc|].
  cbn [app existsb is_error orb]. unfold execute.
  destruct (db_run _) as [query_result|inner_err]; [|reflexivity].
  cbn [existsb is_error orb]. apply display_result_no_db_run.
Qed.

(** X12.  What reaches the database is sanitized: a query that a turn
    sends to [db.run] is the result of the sanitize stage on the answer of
    the model, so it ends in exactly one semicolon and has neither a fence
    nor the phrase of line 90; and a turn sends at most one query. *)
Theorem db_run_only_sanitized
    (messages : list message) (user_query fixed_query : str) :
  In (DbRun fixed_query)
     (snd (handle_query agent_invoke db_run probe literal_eval DataFrame to_csv encode_utf8
             messages user_query)) ->
  (exists raw,
      agent_invoke user_query = Ok raw
      /\ sanitize raw = Ok (Some fixed_query))
  /\ endswith semi fixed_query = true
  /\ endswith (semi ++ semi) fixed_query = false
  /\ contains Re.fence fixed_query = false
  /\ contains lets_run fixed_query = false
  /\ (List.length
        (List.filter is_db_run
           (snd (handle_query agent_invoke db_run probe literal_eval DataFrame to_csv encode_utf8
                   messages user_query))) <= 1)%nat.
Proof.
  unfold handle_query.
  destruct (agent_invoke user_query) as [raw|e] eqn:Ea.
  2:{ cbn. intros [H|[H|[H|[H|[]]]]]; discriminate H. }
  destruct (extract_sql_query raw) as [[|c q]|] eqn:Ee; cbn [truthy_query fst snd].
  1,3: cbn; intros [H|[H|[H|[H|[]]]]]; discriminate H.
  destruct (fix_query_eq (c :: q)) as [x Ex]. rewrite Ex.
  cbn [mbind res_bind fst snd]. unfold execute.
  pose proof (display_result_no_db_run) as Hd.
  assert (Hno : forall effects : list (effect frame),
             existsb is_db_run effects = false ->
             ~ In (DbRun fixed_query) effects
             /\ List.filter is_db_run effects = []).
  { intros effects He. split.
    - intros Hin. apply not_true_iff_false in He. apply He.
      apply existsb_exists. now exists (DbRun fixed_query).
    - induction effects as [|a effects IH]; [reflexivity|].
      cbn [existsb] in He. apply orb_false_iff in He as [Ha He].
      cbn [List.filter]. rewrite Ha. now apply IH. }
  set (tail := match db_run (clean_body x ++ semi) with
               | Ok query_result => _
               | Raise inner_err => _
               end).
  assert (Ht : existsb is_db_run tail = false).
  { unfold tail. destruct (db_run _); [apply Hd | reflexivity]. }
  destruct (Hno tail Ht) as [Hin Hf].
  intros HIn. cbn [app In] in HIn.
  destruct HIn as [H|[H|[H|[H|[H|[H|H]]]]]]; try discriminate H;
    [|contradiction].
  injection H as <-. cbn [app List.filter is_db_run]. rewrite Hf.
  repeat split.
  - exists raw. split; [reflexivity|]. unfold sanitize.
    rewrite Ee. cbn [truthy_query]. now rewrite Ex.
  - apply endswith_app.
  - rewrite endswith_two_semis. apply strip_semi_no_semi.
  - apply clean_body_no_fence.
  - apply clean_body_no_lets_run.
  - cbn [List.length]. lia.
Qed.

End ScriptFurther.

Lemma display_rows_without_length_witness :
  display_result no_probe Literal.literal_eval make_table Csv.to_csv Utf8.encode
    (of_string "SELECT MARKS FROM STUDENT;") (PyList [PyInt 90; PyInt 100])
  = [Warning (display_warning (of_string "object of type 'int' has no len()"))].
Proof.
  apply (display_rows_without_length no_probe Literal.literal_eval make_table Csv.to_csv Utf8.encode
           (of_string "SELECT MARKS FROM STUDENT;") [PyInt 90; PyInt 100]
           (PyInt 90) (of_string "Not an executable object"));
    reflexivity.
Defined.

Lemma marker_without_sql_runs_nothing_witness :
  let raw := of_string ("I cannot answer. SQLQuery:  " ++ s_nl) in
  extract_sql_query raw = Some []
  /\ sanitize raw = Ok None
  /\ handle_query (agent_saying raw) failing_db no_probe
       Literal.literal_eval make_table Csv.to_csv Utf8.encode
           [greeting] (of_string "marks?")
     = (([greeting] ++ [Message user (of_string "marks?")])
          ++ [Message assistant raw],
        [ChatWrite user (of_string "marks?");
         Subheader (129504 :: of_string " Model Reasoning & SQL Query");
         Subheader (128202 :: of_string " Query Results");
         Write (PyStr raw)]).
Proof.
  intros raw.
  apply (marker_without_sql_runs_nothing (agent_saying raw) failing_db no_probe
           Literal.literal_eval make_table Csv.to_csv Utf8.encode
               [greeting] (of_string "marks?") raw
           (of_string ("  " ++ s_nl)));
    reflexivity.
Defined.

Lemma db_run_only_sanitized_witness :
  let raw := of_string "SQLQuery: ```sql SELECT MARKS FROM GRADES;; ```" in
  let fixed_query := of_string "SELECT MARKS FROM GRADES;" in
  let effects :=
    snd (handle_query (agent_saying raw) failing_db no_probe
           Literal.literal_eval make_table Csv.to_csv Utf8.encode
               [greeting] (of_string "marks?")) in
  In (DbRun fixed_query) effects
  /\ sanitize raw = Ok (Some fixed_query)
  /\ endswith semi fixed_query = true
  /\ contains Re.fence fixed_query = false
  /\ (List.length (List.filter is_db_run effects) <= 1)%nat.
Proof.
  intros raw fixed_query effects.
  assert (Hin : In (DbRun fixed_query) effects).
  { cbn. do 5 right. left. reflexivity. }
  split; [exact Hin|].
  destruct (db_run_only_sanitized (agent_saying raw) failing_db no_probe
              Literal.literal_eval make_table Csv.to_csv Utf8.encode
                  [greeting] (of_string "marks?")
              fixed_query Hin) as ((raw' & Hr & Hs) & H1 & _ & H2 & _ & H3).
  injection Hr as <-. repeat split; assumption.
Defined.

(** ** The session over the runs *)

Section SessionFurther.

Context {frame : Type}.
Variable agent_invoke : str -> res str.
Variable db_run : str -> res pyval.
Variable probe : str -> res (list str).
Variable literal_eval : str -> res pyval.
Variable DataFrame : pyval -> list str -> res frame.
Variable to_csv : frame -> res str.
Variable encode_utf8 : str -> res (list N).

Lemma handle_query_appends (messages : list message) (user_query : str) :
  exists tail,
    fst (handle_query agent_invoke db_run probe literal_eval DataFrame
           to_csv encode_utf8 messages user_query)
    = messages ++ Message user user_query :: tail
    /\ (List.length tail <= 1)%nat.
Proof.
  unfold handle_query.
  destruct (agent_invoke user_query) as [raw|e].
  - exists [Message assistant raw].
    destruct (extract_sql_query raw) as [[|c q]|]; cbn [truthy_query fst];
      try (split; [now rewrite <- app_assoc | simpl; lia]).
    destruct (fix_query_eq (c :: q)) as [x ->]. cbn [mbind res_bind fst].
    split; [now rewrite <- app_assoc | simpl; lia].
  - exists []. split; [reflexivity | simpl; lia].
Qed.

Lemma run_script_lookup (session_state : gmap string (list message))
    (clear_button : bool) (user_query : option str) :
  exists tail effects,
    run_script agent_invoke db_run probe literal_eval DataFrame to_csv encode_utf8
      session_state clear_button user_query
    = (<[messages_key :=
           default [] (init_messages session_state clear_button !! messages_key)
             ++ tail]> (init_messages session_state clear_button),
       map (fun m => ChatWrite (msg_role m) (msg_content m))
         (default [] (init_messages session_state clear_button !! messages_key))
         ++ effects)
    /\ (List.length tail <= 2)%nat
    /\ (tail = [] <-> user_query = None \/ user_query = Some []).
Proof.
  unfold run_script.
  set (ss := init_messages session_state clear_button).
  assert (Hk : is_Some (ss !! messages_key)).
  { unfold ss, init_messages.
    destruct (session_state !! messages_key) as [l|] eqn:E.
    - rewrite bool_decide_true by eauto. cbn [negb orb].
      destruct clear_button; [rewrite lookup_insert_eq | rewrite E]; eauto.
    - rewrite bool_decide_false by (intros [? ?]; discriminate).
      cbn [negb orb]. rewrite lookup_insert_eq. eauto. }
  destruct Hk as [msgs Hk]. rewrite Hk. cbn [default].
  change (id msgs) with msgs.
  assert (Hid : <[messages_key := msgs ++ []]> ss = ss).
  { rewrite app_nil_r. now apply insert_id. }
  destruct user_query as [[|c q]|].
  - exists [], []. rewrite Hid, app_nil_r. repeat split; auto; lia.
  - destruct (handle_query_appends msgs (c :: q)) as (tail & Ht & Hl).
    destruct (handle_query _ _ _ _ _ _ _ msgs (c :: q)) as [messages effects].
    cbn [fst] in Ht. subst messages.
    exists (Message user (c :: q) :: tail), effects.
    repeat split; cbn [List.length]; try lia; try discriminate.
    intros [H|H]; discriminate H.
  - exists [], []. rewrite Hid, app_nil_r. repeat split; auto; lia.
Qed.

(** X13.  The greeting stays first: from a session that has no transcript
    yet, or one that begins with the greeting, every run of the script,
    with or without a question, with or without the clear button, ends
    with a transcript that begins with the greeting. *)
Theorem run_script_keeps_greeting_first
    (session_state : gmap string (list message))
    (clear_button : bool) (user_query : option str) :
  well_seeded session_state ->
  exists rest,
    fst (run_script agent_invoke db_run probe literal_eval DataFrame to_csv encode_utf8
           session_state clear_button user_query) !! messages_key
    = Some (greeting :: rest)
    /\ well_seeded
         (fst (run_script agent_invoke db_run probe literal_eval DataFrame to_csv encode_utf8
                 session_state clear_button user_query)).
Proof.
  intros Hw.
  destruct (run_script_lookup session_state clear_button user_query)
    as (tail & effects & -> & _ & _).
  cbn [fst]. unfold well_seeded. rewrite lookup_insert_eq.
  assert (H : exists rest,
             default [] (init_messages session_state clear_button !! messages_key)
             = greeting :: rest).
  { unfold init_messages, well_seeded in *.
    destruct (session_state !! messages_key) as [l|] eqn:E.
    - rewrite bool_decide_true by eauto. cbn [negb orb].
      destruct clear_button.
      + rewrite lookup_insert_eq. now exists [].
      + rewrite E. exact Hw.
    - rewrite bool_decide_false by (intros [? ?]; discriminate).
      cbn [negb orb]. rewrite lookup_insert_eq. now exists []. }
  destruct H as [rest ->]. exists (rest ++ tail). split; [reflexivity|].
  now exists (rest ++ tail).
Qed.

(** X14.  Without the clear button a run only appends: the transcript of
    the session is a prefix of the new one, which has at most two more
    messages, and none more exactly when there is no question (or an
    empty one); the run first shows the old transcript, message by
    message. *)
Theorem run_script_appends
    (session_state : gmap string (list message)) (messages : list message)
    (user_query : option str) :
  session_state !! messages_key = Some messages ->
  exists tail effects,
    run_script agent_invoke db_run probe literal_eval DataFrame to_csv encode_utf8
      session_state false user_query
    = (<[messages_key := messages ++ tail]> session_state,
       map (fun m => ChatWrite (msg_role m) (msg_content m)) messages ++ effects)
    /\ (List.length tail <= 2)%nat
    /\ (tail = [] <-> user_query = None \/ user_query = Some []).
Proof.
  intros Hm.
  destruct (run_script_lookup session_state false user_query)
    as (tail & effects & H & Hl & Ht).
  assert (Hi : init_messages session_state false = session_state).
  { unfold init_messages. now rewrite bool_decide_true by eauto. }
  rewrite Hi, Hm in H. cbn [default] in H. change (id messages) with messages in H.
  now exists tail, effects.
Qed.

(** X15.  A run touches the transcript only: every other key of the
    session keeps what it had. *)
Theorem run_script_other_keys
    (session_state : gmap string (list message))
    (clear_button : bool) (user_query : option str) (key : string) :
  key <> messages_key ->
  fst (run_script agent_invoke db_run probe literal_eval DataFrame to_csv encode_utf8
         session_state clear_button user_query) !! key
  = session_state !! key.
Proof.
  intros Hk.
  destruct (run_script_lookup session_state clear_button user_query)
    as (tail & effects & -> & _ & _).
  cbn [fst]. rewrite lookup_insert_ne by congruence.
  unfold init_messages.
  destruct (negb _ || clear_button); [|reflexivity].
  now rewrite lookup_insert_ne by congruence.
Qed.

End SessionFurther.

Lemma run_script_keeps_greeting_first_witness :
  exists rest,
    fst (run_script (agent_saying (of_string "SQLQuery: SELECT 1")) failing_db
           no_probe Literal.literal_eval make_table Csv.to_csv Utf8.encode
           (∅ : gmap string (list message)) false
           (Some (of_string "one?"))) !! messages_key
    = Some (greeting :: rest)
    /\ well_seeded
         (fst (run_script (agent_saying (of_string "SQLQuery: SELECT 1"))
                 failing_db no_probe Literal.literal_eval make_table Csv.to_csv Utf8.encode
                 (∅ : gmap string (list message)) false
                 (Some (of_string "one?")))).
Proof.
  apply (run_script_keeps_greeting_first
           (agent_saying (of_string "SQLQuery: SELECT 1")) failing_db
           no_probe Literal.literal_eval make_table Csv.to_csv Utf8.encode ∅ false
           (Some (of_string "one?"))).
  exact I.
Defined.

Lemma run_script_appends_witness :
  exists tail effects,
    run_script (agent_saying (of_string "SQLQuery: SELECT 1")) failing_db
      no_probe Literal.literal_eval make_table Csv.to_csv Utf8.encode
      ({[ messages_key := [greeting] ]} : gmap string (list message)) false None
    = (<[messages_key := [greeting] ++ tail]>
         ({[ messages_key := [greeting] ]} : gmap string (list message)),
       map (fun m => ChatWrite (msg_role m) (msg_content m)) [greeting]
         ++ effects)
    /\ (List.length tail <= 2)%nat
    /\ (tail = [] <-> @None str = None \/ @None str = Some []).
Proof.
  apply (run_script_appends
           (agent_saying (of_string "SQLQuery: SELECT 1")) failing_db
           no_probe Literal.literal_eval make_table Csv.to_csv Utf8.encode
           {[ messages_key := [greeting] ]} [greeting] None).
  reflexivity.
Defined.

Lemma run_script_other_keys_witness :
  fst (run_script (agent_saying (of_string "SQLQuery: SELECT 1")) failing_db
         no_probe Literal.literal_eval make_table Csv.to_csv Utf8.encode
         ({[ "theme"%string := [] ]} : gmap string (list message)) true None)
    !! "theme"%string
  = ({[ "theme"%string := [] ]} : gmap string (list message)) !! "theme"%string.
Proof.
  apply (run_script_other_keys
           (agent_saying (of_string "SQLQuery: SELECT 1")) failing_db
           no_probe Literal.literal_eval make_table Csv.to_csv Utf8.encode
           {[ "theme"%string := [] ]} true None "theme"%string).
  discriminate.
Defined.

(** ** The start of the script *)

Section StartupProperties.

Context {database : Type}.
Variable dbfilepath : str.
Variable SQLDatabase : engine -> res database.
Variable get_usable_table_names : database -> res (list str).

Lemma eqb_str_refl (a : str) : eqb_str a a = true.
Proof. induction a as [|x a IH]; simpl; [reflexivity|]. now rewrite N.eqb_refl. Qed.

(** X16.  With the MySQL option chosen and one of the four fields empty,
    the script stops with the request for the connection details and
    creates no engine, whether the key was typed (the test of lines 51-53)
    or not (the test inside [configure_db]). *)
Theorem startup_mysql_missing_details
    (mysql_host mysql_user mysql_password mysql_db api_key : str) :
  all_given (Some mysql_host) (Some mysql_user) (Some mysql_password)
    (Some mysql_db) = false ->
  startup dbfilepath SQLDatabase get_usable_table_names 1
    mysql_host mysql_user mysql_password mysql_db api_key
  = ([StError details_message], Stop).
Proof.
  intros H. unfold startup, configure_db.
  cbn [Nat.eqb]. change (eqb_str MYSQL MYSQL) with true.
  change (eqb_str MYSQL LOCALDB) with false. cbn iota.
  rewrite H. cbn [negb]. rewrite andb_true_r.
  now destruct (given (Some api_key)).
Qed.

(** X17.  The script gets past the start, to line 71 with a database,
    exactly when the key is not empty and the database object could be
    built: on the read-only SQLite file beside the script when the first
    option is chosen, on the MySQL URI made of the four fields, all of them
    filled, when the second is. *)
Theorem startup_proceeds_iff (selected : nat)
    (mysql_host mysql_user mysql_password mysql_db api_key : str)
    (db : database) :
  snd (startup dbfilepath SQLDatabase get_usable_table_names selected
         mysql_host mysql_user mysql_password mysql_db api_key)
  = Return (Some db)
  <->
  api_key <> []
  /\ ((selected <> 1%nat
       /\ SQLDatabase
            (SqliteCreator (of_string "file:" ++ dbfilepath ++ of_string "?mode=ro"))
          = Ok db)
      \/ (selected = 1%nat
          /\ all_given (Some mysql_host) (Some mysql_user)
               (Some mysql_password) (Some mysql_db) = true
          /\ SQLDatabase
               (ConnectionUri
                  (of_string "mysql+mysqlconnector://" ++ mysql_user
                     ++ of_string ":" ++ mysql_password
                     ++ of_string "@" ++ mysql_host
                     ++ of_string "/" ++ mysql_db))
             = Ok db)).
Proof.
  unfold startup, configure_db, open_engine.
  destruct (Nat.eqb_spec selected 1) as [->|Hsel].
  - change (eqb_str MYSQL MYSQL) with true.
    change (eqb_str MYSQL LOCALDB) with false. cbn iota.
    destruct (all_given _ _ _ _) eqn:Hall; cbn [negb].
    + rewrite andb_false_r. cbn [format_field].
      destruct (SQLDatabase (ConnectionUri _)) as [d|e] eqn:Ed.
      * destruct api_key as [|c k]; cbn [given negb snd].
        -- split; [discriminate|]. intros [H _]. congruence.
        -- split.
           ++ intros [= ->]. split; [discriminate|]. right. auto.
           ++ intros [_ [[H _]|(_ & _ & H)]]; congruence.
      * cbn [snd]. split; [discriminate|].
        intros [_ [[H _]|(_ & _ & H)]]; congruence.
    + rewrite andb_true_r.
      destruct (given (Some api_key)); cbn [snd];
        (split; [discriminate|]);
        intros [_ [[H _]|(_ & H & _)]]; congruence.
  - change (eqb_str LOCALDB MYSQL) with false.
    change (eqb_str LOCALDB LOCALDB) with true. cbn iota.
    destruct (SQLDatabase (SqliteCreator _)) as [d|e] eqn:Ed.
    + destruct api_key as [|c k]; cbn [given negb snd].
      * split; [discriminate|]. intros [H _]. congruence.
      * split.
        -- intros [= ->]. split; [discriminate|]. left. auto.
        -- intros [_ [[_ H]|[H _]]]; congruence.
    + cbn [snd]. split; [discriminate|].
      intros [_ [[_ H]|[H _]]]; congruence.
Qed.

End StartupProperties.

(** X18.  The list of the tables is for the sidebar only: whether it can
    be fetched or not, the script stops or goes on in the same way. *)
Theorem startup_flow_ignores_tables {database : Type}
    (dbfilepath : str) (SQLDatabase : engine -> res database)
    (tables tables' : database -> res (list str)) (selected : nat)
    (mysql_host mysql_user mysql_password mysql_db api_key : str) :
  snd (startup dbfilepath SQLDatabase tables selected
         mysql_host mysql_user mysql_password mysql_db api_key)
  = snd (startup dbfilepath SQLDatabase tables' selected
           mysql_host mysql_user mysql_password mysql_db api_key)
  /\ List.filter is_create_engine
       (fst (startup dbfilepath SQLDatabase tables selected
               mysql_host mysql_user mysql_password mysql_db api_key))
     = List.filter is_create_engine
         (fst (startup dbfilepath SQLDatabase tables' selected
                 mysql_host mysql_user mysql_password mysql_db api_key)).
Proof.
  unfold startup.
  set (configured := if eqb_str _ MYSQL then _ else _).
  destruct configured as [effects [db| |e]]; [|split; reflexivity..].
  destruct (negb (given (Some api_key))); cbn [fst snd];
    (split; [reflexivity|]);
    rewrite !List.filter_app; f_equal; cbn [List.filter];
    unfold list_tables;
    destruct db as [d|]; try reflexivity;
    destruct (tables d) as [[|]|], (tables' d) as [[|]|]; reflexivity.
Qed.

Lemma startup_mysql_missing_details_witness :
  startup (of_string "/srv/app/student.db")
    (fun _ : engine => Ok tt) (fun _ : unit => Ok []) 1
    (of_string "db.example.org") (of_string "reader") [] (of_string "school")
    (of_string "gsk_key")
  = ([StError details_message], Stop).
Proof.
  apply (startup_mysql_missing_details (of_string "/srv/app/student.db")
           (fun _ : engine => Ok tt) (fun _ : unit => Ok [])).
  reflexivity.
Defined.

(** ** The seeding script *)

Lemma executemany_insert_app (rows records : list pyval) :
  Seed.executemany_insert rows records = rows ++ records.
Proof.
  unfold Seed.executemany_insert. revert rows.
  induction records as [|r records IH]; intros rows; simpl.
  - now rewrite app_nil_r.
  - rewrite IH. now rewrite <- app_assoc.
Qed.

Lemma concat_repeat_snoc {A : Type} (l : list A) (k : nat) :
  concat (repeat l (S k)) = concat (repeat l k) ++ l.
Proof.
  induction k as [|k IH]; [cbn; now rewrite app_nil_r|].
  change (repeat l (S (S k))) with (l :: repeat l (S k)).
  cbn [concat]. rewrite IH at 1. cbn [repeat concat]. now rewrite app_assoc.
Qed.

Lemma length_concat_repeat {A : Type} (l : list A) (k : nat) :
  List.length (concat (repeat l k)) = (k * List.length l)%nat.
Proof.
  induction k as [|k IH]; [reflexivity|].
  cbn [repeat concat]. rewrite length_app, IH. lia.
Qed.

Lemma seed_main_appends (file : Seed.db_file) :
  Seed.main file
  = (Some (Seed.create_table file ++ Seed.students),
     Seed.Line (of_string "The inserted records are:")
       :: map Seed.Row (Seed.create_table file ++ Seed.students)).
Proof. unfold Seed.main. now rewrite executemany_insert_app. Qed.

(** X19.  The seeding script is not idempotent: every run appends the five
    students again.  After [n] runs on a file without the table, the
    table holds [n] copies of the five records, in order, and the run
    after these prints the heading and then all the rows, the new ones
    included. *)
Theorem seed_runs (n : nat) :
  Seed.runs (S n) None = Some (concat (repeat Seed.students (S n)))
  /\ (exists rows, Seed.runs (S n) None = Some rows
                   /\ List.length rows = (5 * S n)%nat)
  /\ snd (Seed.main (Seed.runs n None))
     = Seed.Line (of_string "The inserted records are:")
       :: map Seed.Row (concat (repeat Seed.students (S n))).
Proof.
  assert (H : forall k, Seed.runs (S k) None
                        = Some (concat (repeat Seed.students (S k)))).
  { induction k as [|k IH]; [reflexivity|].
    change (Seed.runs (S (S k)) None)
      with (fst (Seed.main (Seed.runs (S k) None))).
    rewrite IH, seed_main_appends. cbn [fst Seed.create_table].
    now rewrite <- concat_repeat_snoc. }
  repeat split.
  - apply H.
  - eexists. split; [apply H|].
    rewrite length_concat_repeat.
    change (List.length Seed.students) with 5%nat. lia.
  - rewrite seed_main_appends. cbn [snd]. do 2 f_equal.
    destruct n as [|n]; [reflexivity|].
    rewrite H. cbn [Seed.create_table]. now rewrite <- concat_repeat_snoc.
Qed.

Lemma startup_proceeds_iff_witness :
  snd (startup (of_string "/srv/app/student.db")
         (fun _ : engine => Ok tt)
         (fun _ : unit => Raise (of_string "database is locked")) 0
         [] [] [] [] (of_string "gsk_key"))
  = Return (Some tt).
Proof.
  apply (proj2 (startup_proceeds_iff (of_string "/srv/app/student.db")
                  (fun _ : engine => Ok tt)
                  (fun _ : unit => Raise (of_string "database is locked")) 0
                  [] [] [] [] (of_string "gsk_key") tt)).
  split; [discriminate|]. left. split; [discriminate | reflexivity].
Defined.

Lemma sub_fences_fixed_points_witness :
  Re.sub_empty Re.fence_len (of_string "SELECT `NAME`, ``MARKS`` FROM STUDENT")
  = of_string "SELECT `NAME`, ``MARKS`` FROM STUDENT".
Proof.
  apply (proj2 (proj1 (sub_fences_fixed_points
                         (of_string "SELECT `NAME`, ``MARKS`` FROM STUDENT")))).
  reflexivity.
Defined.
